(** * Process-AI: a shallow embedding of the process store, the oracle
      adapters and the baseline/optimized comparison.

    The development follows the TypeScript sources:
    - [types.ts]            the data model (module per interface);
    - [geminiService.ts]    [simulateProcess], [parseProcessDescription],
                            [chatWithProcessAI];
    - [ComparisonView.tsx]  [chartData], [getDelta] and the table rows;
    - [ProcessBuilder.tsx]  the step editing handlers;
    - [ChatPanel.tsx]       [handleSend];
    - [ApiKeyModal.tsx]     [handleSubmit];
    - [SimulationViewer.tsx] what the results view shows;
    - [App.tsx]             the state, its persistence and the handlers.

    Conventions of the embedding.
    - A JavaScript [number] is an IEEE 754 binary64 value: Rocq's primitive
      [float].  [===] on numbers is [PrimFloat.eqb].
    - A value of type [T | null | undefined] is an [option T]; [None] stands
      for both [null] and [undefined], which the sources never tell apart
      (they only test truthiness).
    - The external oracle, the clock and [crypto.randomUUID] are inputs: a
      call receives the reply, the time and the identifiers the environment
      hands out.  An [async] handler is split at its [await]: the part that
      runs before the request is issued, and the continuation that runs when
      the promise settles.
    - A JSON text is represented by the document it denotes ([Json.t]);
      [JSON.stringify] and [JSON.parse] are the maps between the typed data
      model and such documents. *)

From Stdlib Require Import Floats.
From stdpp Require Import gmap strings list.

#[global] Set Warnings "-register-all".

(** ** JavaScript primitives used by the sources *)

Module JS.

(** [ToBoolean] on a number: [0], [-0] and [NaN] are falsy. *)
Definition truthy_num (x : float) : bool :=
  negb (PrimFloat.is_zero x || PrimFloat.is_nan x).

(** [ToBoolean] on a string: only the empty string is falsy. *)
Definition truthy_str (s : string) : bool :=
  negb (String.eqb s "").

(** [x || d] where [x : number | undefined]. *)
Definition num_or (x : option float) (d : float) : float :=
  match x with
  | Some v => if truthy_num v then v else d
  | None => d
  end.

(** [s || d] where [s : string | undefined]. *)
Definition str_or (s : option string) (d : string) : string :=
  match s with
  | Some v => if truthy_str v then v else d
  | None => d
  end.

(** [a || b] where both sides are an object or [null]: every object is
    truthy. *)
Definition obj_or_else {A : Type} (a b : option A) : option A :=
  match a with
  | Some v => Some v
  | None => b
  end.

(** White space of [String.prototype.trim], for the ASCII characters. *)
Definition whitespace (c : Ascii.ascii) : bool :=
  let n := Ascii.nat_of_ascii c in
  (Nat.leb 9 n && Nat.leb n 13) || Nat.eqb n 32.

(** [!s.trim()] *)
Definition blank (s : string) : bool :=
  List.forallb whitespace (String.list_ascii_of_string s).

(** [s.trimStart()] and [s.trimEnd()], for the same characters. *)
Fixpoint trimStart (s : string) : string :=
  match s with
  | EmptyString => EmptyString
  | String c rest => if whitespace c then trimStart rest else s
  end.

Fixpoint trimEnd (s : string) : string :=
  match s with
  | EmptyString => EmptyString
  | String c rest =>
      let rest' := trimEnd rest in
      if whitespace c && String.eqb rest' "" then EmptyString
      else String c rest'
  end.

(** [s.trim()] *)
Definition trim (s : string) : string := trimEnd (trimStart s).

(** [!!o] for an object or [undefined]. *)
Definition is_object {A : Type} (o : option A) : bool :=
  match o with
  | Some _ => true
  | None => false
  end.

End JS.

(** ** The data model ([types.ts]) *)

Module ProcessStep.
Record t := mk {
  id : string;
  name : string;
  description : string;
  inputs : string;
  conditions : option string
}.
End ProcessStep.

Inductive Category := efficiency | waste | yield | throughput | other.

Module SimulationMetric.
Record t := mk {
  name : string;
  value : float;
  unit : string;
  category : Category
}.
End SimulationMetric.

Inductive Status := success | warning | failure.

Module SimulationLog.
Record t := mk {
  stepId : string;
  stepName : string;
  outcome : string;
  details : string;
  status : Status
}.
End SimulationLog.

Inductive RunType := BASELINE | OPTIMIZED.

Module SimulationResult.
Record t := mk {
  id : string;
  timestamp : float;
  type : RunType;
  metrics : list SimulationMetric.t;
  logs : list SimulationLog.t;
  summary : string;
  assumptions : list string
}.
End SimulationResult.

Inductive Role := user | model.

Module ChatMessage.
Record t := mk {
  role : Role;
  text : string;
  isOptimizedProposal : option bool;
  proposedProcess : option (list ProcessStep.t)
}.
End ChatMessage.

(** ** [ComparisonView.tsx] *)

Module ComparisonView.

(** [metrics.find(m => m.name === n)] *)
Definition find_metric (n : string) (ms : list SimulationMetric.t)
  : option SimulationMetric.t :=
  List.find (fun m => String.eqb (SimulationMetric.name m) n) ms.

Record ChartDatum := mkDatum {
  name : string;
  Baseline : float;
  Optimized : float;
  unit : string
}.

(** One element of [chartData]: [oMetric ? oMetric.value : 0]. *)
Definition chartDatum (optimized : SimulationResult.t)
    (bMetric : SimulationMetric.t) : ChartDatum :=
  let oMetric :=
    find_metric (SimulationMetric.name bMetric)
                (SimulationResult.metrics optimized) in
  {| name := SimulationMetric.name bMetric;
     Baseline := SimulationMetric.value bMetric;
     Optimized := match oMetric with
                  | Some m => SimulationMetric.value m
                  | None => 0%float
                  end;
     unit := SimulationMetric.unit bMetric |}.

Definition chartData (baseline optimized : SimulationResult.t)
  : list ChartDatum :=
  List.map (chartDatum optimized) (SimulationResult.metrics baseline).

(** The arithmetic of [getDelta] once [b] and [o] are known. *)
Definition delta_of (b o : float) : float :=
  if (b =? 0)%float then 0%float else (((o - b) / b) * 100)%float.

Definition getDelta (baseline optimized : SimulationResult.t)
    (metricName : string) : float :=
  let b := JS.num_or (SimulationMetric.value <$>
             find_metric metricName (SimulationResult.metrics baseline))
             0%float in
  let o := JS.num_or (SimulationMetric.value <$>
             find_metric metricName (SimulationResult.metrics optimized))
             0%float in
  delta_of b o.

(** [['yield', 'efficiency', 'throughput'].includes(metric.category)] *)
Definition isPositiveGood (c : Category) : bool :=
  match c with
  | yield | efficiency | throughput => true
  | waste | other => false
  end.

Inductive Badge := Green | Slate | Red.

(** One [<tr>] of the detailed table (the [toFixed] rendering of the
    delta is left out: the row keeps the number). *)
Record Row := mkRow {
  key : string;
  baselineValue : float;
  baselineUnit : string;
  optimizedValue : option float;
  optimizedUnit : option string;
  delta : float;
  isImprovement : bool;
  badge : Badge;
  plusSign : bool
}.

Definition tableRow (baseline optimized : SimulationResult.t)
    (metric : SimulationMetric.t) : Row :=
  let optMetric :=
    find_metric (SimulationMetric.name metric)
                (SimulationResult.metrics optimized) in
  let d := getDelta baseline optimized (SimulationMetric.name metric) in
  let improvement :=
    if isPositiveGood (SimulationMetric.category metric)
    then (0 <? d)%float else (d <? 0)%float in
  {| key := SimulationMetric.name metric;
     baselineValue := SimulationMetric.value metric;
     baselineUnit := SimulationMetric.unit metric;
     optimizedValue := SimulationMetric.value <$> optMetric;
     optimizedUnit := SimulationMetric.unit <$> optMetric;
     delta := d;
     isImprovement := improvement;
     badge := if improvement then Green
              else if (d =? 0)%float then Slate else Red;
     plusSign := (0 <? d)%float |}.

Definition tableRows (baseline optimized : SimulationResult.t) : list Row :=
  List.map (tableRow baseline optimized) (SimulationResult.metrics baseline).

End ComparisonView.

(** ** [services/geminiService.ts] *)

Module GeminiService.

(** What an adapter throws. *)
Inductive Error :=
| ApiKeyMissing      (* new Error("API Key is missing") *)
| NoResponse         (* new Error("No response from AI") *)
| JsonSyntaxError    (* thrown by JSON.parse *)
| TransportError.    (* the SDK call rejects (network, credential) *)

(** The spec's taxonomy of the failures. *)
Inductive ErrorClass := OracleUnavailable | MalformedResponse | TransportFailure.

Definition classify (e : Error) : ErrorClass :=
  match e with
  | ApiKeyMissing => OracleUnavailable
  | NoResponse | JsonSyntaxError => MalformedResponse
  | TransportError => TransportFailure
  end.

(** How an [async] function settles. *)
Inductive Promise (A : Type) :=
| Fulfilled (a : A)
| RejectedWith (e : Error).
Arguments Fulfilled {A} a.
Arguments RejectedWith {A} e.

(** What [ai.models.generateContent] gives back, seen through the two
    statements that follow it: [response.text] and [JSON.parse(text)].
    [A] is the shape the caller reads from the parsed value, which the
    response schema describes; a text that parses to another shape has no
    counterpart in the typed data model. *)
Inductive Reply (A : Type) :=
| Rejects                (* the request fails *)
| NoText                 (* [response.text] is undefined or empty *)
| Unparseable            (* [JSON.parse] throws *)
| Parses (data : A).     (* [JSON.parse(text)] is [data] *)
Arguments Rejects {A}.
Arguments NoText {A}.
Arguments Unparseable {A}.
Arguments Parses {A} data.

(** The statements after the [await], common to both JSON adapters. *)
Definition readJson {A B : Type} (r : Reply A) (k : A → B) : Promise B :=
  match r with
  | Rejects => RejectedWith TransportError
  | NoText => RejectedWith NoResponse
  | Unparseable => RejectedWith JsonSyntaxError
  | Parses data => Fulfilled (k data)
  end.

Definition MODEL : string := "gemini-3-flash-preview".

(** *** Simulation service *)

(** The first item of the task list in the prompt. *)
Inductive MetricInstruction :=
| MustInclude (names : list string)   (* "IMPORTANT: You must calculate ..." *)
| StandardKPIs.                       (* "Estimate realistic outcomes ..." *)

(** The request handed to [generateContent]: the model and what the
    prompt template interpolates. *)
Record SimulationRequest := mkSimulationRequest {
  sim_model : string;
  sim_processName : string;
  sim_steps : list ProcessStep.t;
  sim_metricInstruction : MetricInstruction
}.

(** The fields read from [data]. *)
Record SimulationData := mkSimulationData {
  metrics : list SimulationMetric.t;
  logs : list SimulationLog.t;
  summary : string;
  assumptions : list string
}.

Record SimulationEnv := mkSimulationEnv {
  sim_generateContent : SimulationRequest → Reply SimulationData;
  sim_randomUUID : string;      (* crypto.randomUUID() *)
  sim_now : float               (* Date.now() *)
}.

(** [referenceMetrics && referenceMetrics.length > 0 ? ... : ...] *)
Definition metricInstruction (referenceMetrics : option (list string))
  : MetricInstruction :=
  match referenceMetrics with
  | Some (n :: ns) => MustInclude (n :: ns)
  | Some [] | None => StandardKPIs
  end.

(** An adapter call: the requests it issued, in order, and how its
    promise settled. *)
Record Call (Rq A : Type) := mkCall {
  issued : list Rq;
  settled : Promise A
}.
Arguments mkCall {Rq A} issued settled.
Arguments issued {Rq A} c.
Arguments settled {Rq A} c.

Definition simulateProcess (env : SimulationEnv)
    (apiKey processName : string) (steps : list ProcessStep.t)
    (type : RunType) (referenceMetrics : option (list string))
  : Call SimulationRequest SimulationResult.t :=
  if negb (JS.truthy_str apiKey) then mkCall [] (RejectedWith ApiKeyMissing)
  else
    let request :=
      {| sim_model := MODEL;
         sim_processName := processName;
         sim_steps := steps;
         sim_metricInstruction := metricInstruction referenceMetrics |} in
    mkCall [request]
      (readJson (sim_generateContent env request) (fun data =>
         {| SimulationResult.id := sim_randomUUID env;
            SimulationResult.timestamp := sim_now env;
            SimulationResult.type := type;
            SimulationResult.metrics := metrics data;
            SimulationResult.logs := logs data;
            SimulationResult.summary := summary data;
            SimulationResult.assumptions := assumptions data |})).

(** *** Import parsing service *)

(** An element [s : any] of the parsed array.  The response schema
    requires [id], [name] and [description]; the adapter guards [id],
    [inputs] and [conditions] with [||] and copies the other two. *)
Record RawStep := mkRawStep {
  raw_id : option string;
  raw_name : string;
  raw_description : string;
  raw_inputs : option string;
  raw_conditions : option string
}.

Record ImportRequest := mkImportRequest {
  imp_model : string;
  imp_text : string
}.

Record ImportEnv := mkImportEnv {
  imp_generateContent : ImportRequest → Reply (list RawStep);
  (* the successive results of crypto.randomUUID() during the call *)
  imp_randomUUID : nat → string
}.

(** [s.id || crypto.randomUUID()]: the identifier of the step, and how
    many identifiers have been drawn after it ([||] draws one only when
    [s.id] is falsy: missing or empty). *)
Definition idOrFresh (randomUUID : nat → string) (n : nat)
    (i : option string) : string * nat :=
  match i with
  | Some v => if JS.truthy_str v then (v, n) else (randomUUID n, S n)
  | None => (randomUUID n, S n)
  end.

(** [steps.map((s: any) => ({ id: s.id || crypto.randomUUID(), ... }))];
    [n] counts the identifiers drawn so far. *)
Fixpoint mapSteps (randomUUID : nat → string) (n : nat)
    (steps : list RawStep) : list ProcessStep.t :=
  match steps with
  | [] => []
  | s :: rest =>
      let '(i, n') := idOrFresh randomUUID n (raw_id s) in
      {| ProcessStep.id := i;
         ProcessStep.name := raw_name s;
         ProcessStep.description := raw_description s;
         ProcessStep.inputs := JS.str_or (raw_inputs s) "None";
         ProcessStep.conditions := Some (JS.str_or (raw_conditions s) "") |}
      :: mapSteps randomUUID n' rest
  end.

Definition parseProcessDescription (env : ImportEnv)
    (apiKey text : string) : Call ImportRequest (list ProcessStep.t) :=
  if negb (JS.truthy_str apiKey) then mkCall [] (RejectedWith ApiKeyMissing)
  else
    let request := {| imp_model := MODEL; imp_text := text |} in
    mkCall [request]
      (readJson (imp_generateContent env request)
                (mapSteps (imp_randomUUID env) 0)).

(** *** Chat and optimization service *)

(** [JSON.stringify(simulationContext?.metrics || 'No simulation run yet')] *)
Inductive LatestResults :=
| LatestMetrics (ms : list SimulationMetric.t)
| NoSimulationRunYet.

Record SystemContext := mkSystemContext {
  ctx_processName : string;
  ctx_steps : list ProcessStep.t;
  ctx_latest : LatestResults
}.

Record ChatRequest := mkChatRequest {
  chat_model : string;
  chat_systemInstruction : SystemContext;
  chat_tools : list string;
  chat_message : string
}.

Record FunctionCall := mkFunctionCall {
  call_name : string;
  arg_steps : list ProcessStep.t;
  arg_reasoning : string
}.

(** [result] of [chat.sendMessage]. *)
Record ChatResult := mkChatResult {
  functionCalls : option (list FunctionCall);
  result_text : option string
}.

Inductive ChatReply :=
| ChatRejects
| ChatResolves (r : ChatResult).

Record ChatAnswer := mkChatAnswer {
  text : string;
  proposedProcess : option (list ProcessStep.t)
}.

Definition updateProcessTool : string := "updateProcessDefinition".

Definition newline : string := String (Ascii.ascii_of_nat 10) EmptyString.

Definition historyLine (h : ChatMessage.t) : string :=
  ((match ChatMessage.role h with user => "User" | model => "AI" end)
     ++ ": " ++ ChatMessage.text h)%string.

Definition systemContext (currentProcessName : string)
    (currentSteps : list ProcessStep.t)
    (simulationContext : option SimulationResult.t) : SystemContext :=
  {| ctx_processName := currentProcessName;
     ctx_steps := currentSteps;
     ctx_latest := match simulationContext with
                   | Some r => LatestMetrics (SimulationResult.metrics r)
                   | None => NoSimulationRunYet
                   end |}.

Definition chatWithProcessAI (sendMessage : ChatRequest → ChatReply)
    (apiKey : string) (history : list ChatMessage.t)
    (currentMessage : string)
    (currentProcessName : string) (currentSteps : list ProcessStep.t)
    (simulationContext : option SimulationResult.t)
  : Call ChatRequest ChatAnswer :=
  if negb (JS.truthy_str apiKey) then mkCall [] (RejectedWith ApiKeyMissing)
  else
    let historyText := String.concat newline (List.map historyLine history) in
    let fullPrompt :=
      (historyText ++ newline ++ "User: " ++ currentMessage)%string in
    let request :=
      {| chat_model := MODEL;
         chat_systemInstruction :=
           systemContext currentProcessName currentSteps simulationContext;
         chat_tools := [updateProcessTool];
         chat_message := fullPrompt |} in
    mkCall [request]
      match sendMessage request with
      | ChatRejects => RejectedWith TransportError
      | ChatResolves result =>
          let fallback :=
            {| text := JS.str_or (result_text result)
                         "I processed that but have no specific output.";
               proposedProcess := None |} in
          match functionCalls result with
          | Some (call :: _) =>
              if String.eqb (call_name call) updateProcessTool
              then Fulfilled
                {| text :=
                     ("I have generated an optimized version of the process based on your request. Reasoning: "
                        ++ arg_reasoning call
                        ++ ". Click 'Apply Changes' to review and simulate.")%string;
                   proposedProcess := Some (arg_steps call) |}
              else Fulfilled fallback
          | Some [] | None => Fulfilled fallback
          end
      end.

End GeminiService.

(** ** JSON documents, [JSON.stringify] and [JSON.parse] *)

Module Json.

(** The document a JSON text denotes, that is the value [JSON.parse]
    builds from it.  A number is never [NaN] there; an overflowing literal
    such as [1e999] is [infinity], and [-0] is the negative zero. *)
Inductive t :=
| Null
| Bool (b : bool)
| Num (x : float)
| Str (s : string)
| Arr (elements : list t)
| Obj (properties : list (string * t)).

(** Reading property [k] of a parsed object: when a key occurs twice in
    the text the last occurrence wins. *)
Fixpoint prop (k : string) (properties : list (string * t)) : option t :=
  match properties with
  | [] => None
  | (k', v) :: rest =>
      match prop k rest with
      | Some w => Some w
      | None => if String.eqb k' k then Some v else None
      end
  end.

(** [ToBoolean] of a parsed value. *)
Definition truthy (j : t) : bool :=
  match j with
  | Null => false
  | Bool b => b
  | Num x => JS.truthy_num x
  | Str s => JS.truthy_str s
  | Arr _ | Obj _ => true
  end.

(** *** What [JSON.stringify] writes for a value of each type *)

(** A finite number is written with digits that read back as the same
    number, except that [-0] is written [0]; [NaN] and the infinities are
    written [null]. *)
Definition of_number (x : float) : t :=
  if PrimFloat.is_finite x
  then Num (if PrimFloat.is_zero x then 0%float else x)
  else Null.

(** A property whose value is [undefined] is left out. *)
Definition optional {A : Type} (k : string) (enc : A → t) (o : option A)
  : list (string * t) :=
  match o with
  | Some v => [(k, enc v)]
  | None => []
  end.

(** A [T | null] property holding [null] is written [null]. *)
Definition nullable {A : Type} (enc : A → t) (o : option A) : t :=
  match o with
  | Some v => enc v
  | None => Null
  end.

Definition of_list {A : Type} (enc : A → t) (l : list A) : t :=
  Arr (enc <$> l).

Definition of_step (s : ProcessStep.t) : t :=
  Obj ([("id", Str (ProcessStep.id s));
        ("name", Str (ProcessStep.name s));
        ("description", Str (ProcessStep.description s));
        ("inputs", Str (ProcessStep.inputs s))]
       ++ optional "conditions" Str (ProcessStep.conditions s)).

Definition category_name (c : Category) : string :=
  match c with
  | efficiency => "efficiency"
  | waste => "waste"
  | yield => "yield"
  | throughput => "throughput"
  | other => "other"
  end.

Definition status_name (s : Status) : string :=
  match s with
  | success => "success"
  | warning => "warning"
  | failure => "failure"
  end.

Definition type_name (r : RunType) : string :=
  match r with
  | BASELINE => "BASELINE"
  | OPTIMIZED => "OPTIMIZED"
  end.

Definition role_name (r : Role) : string :=
  match r with
  | user => "user"
  | model => "model"
  end.

Definition of_metric (m : SimulationMetric.t) : t :=
  Obj [("name", Str (SimulationMetric.name m));
       ("value", of_number (SimulationMetric.value m));
       ("unit", Str (SimulationMetric.unit m));
       ("category", Str (category_name (SimulationMetric.category m)))].

Definition of_log (l : SimulationLog.t) : t :=
  Obj [("stepId", Str (SimulationLog.stepId l));
       ("stepName", Str (SimulationLog.stepName l));
       ("outcome", Str (SimulationLog.outcome l));
       ("details", Str (SimulationLog.details l));
       ("status", Str (status_name (SimulationLog.status l)))].

Definition of_result (r : SimulationResult.t) : t :=
  Obj [("id", Str (SimulationResult.id r));
       ("timestamp", of_number (SimulationResult.timestamp r));
       ("type", Str (type_name (SimulationResult.type r)));
       ("metrics", of_list of_metric (SimulationResult.metrics r));
       ("logs", of_list of_log (SimulationResult.logs r));
       ("summary", Str (SimulationResult.summary r));
       ("assumptions", of_list Str (SimulationResult.assumptions r))].

Definition of_message (m : ChatMessage.t) : t :=
  Obj ([("role", Str (role_name (ChatMessage.role m)));
        ("text", Str (ChatMessage.text m))]
       ++ optional "isOptimizedProposal" Bool (ChatMessage.isOptimizedProposal m)
       ++ optional "proposedProcess" (of_list of_step)
            (ChatMessage.proposedProcess m)).

(** *** Reading a parsed value at a type of the data model

    The sources cast the parsed value ([any]) to the type without a check.
    A reader gives [None] when the document does not have the shape of
    the type: the typed data model has no value for what the cast would
    then let through. *)

Definition to_string (j : t) : option string :=
  match j with Str s => Some s | _ => None end.

Definition to_number (j : t) : option float :=
  match j with Num x => Some x | _ => None end.

Definition to_bool (j : t) : option bool :=
  match j with Bool b => Some b | _ => None end.

Definition to_list {A : Type} (dec : t → option A) (j : t) : option (list A) :=
  match j with Arr l => mapM dec l | _ => None end.

(** A required property. *)
Definition field {A : Type} (k : string) (dec : t → option A)
    (properties : list (string * t)) : option A :=
  prop k properties ≫= dec.

(** A property declared with [?]: absent reads as [undefined]. *)
Definition field_opt {A : Type} (k : string) (dec : t → option A)
    (properties : list (string * t)) : option (option A) :=
  match prop k properties with
  | None => Some None
  | Some j => Some <$> dec j
  end.

Definition to_category (j : t) : option Category :=
  s ← to_string j;
  if String.eqb s "efficiency" then Some efficiency
  else if String.eqb s "waste" then Some waste
  else if String.eqb s "yield" then Some yield
  else if String.eqb s "throughput" then Some throughput
  else if String.eqb s "other" then Some other
  else None.

Definition to_status (j : t) : option Status :=
  s ← to_string j;
  if String.eqb s "success" then Some success
  else if String.eqb s "warning" then Some warning
  else if String.eqb s "failure" then Some failure
  else None.

Definition to_type (j : t) : option RunType :=
  s ← to_string j;
  if String.eqb s "BASELINE" then Some BASELINE
  else if String.eqb s "OPTIMIZED" then Some OPTIMIZED
  else None.

Definition to_role (j : t) : option Role :=
  s ← to_string j;
  if String.eqb s "user" then Some user
  else if String.eqb s "model" then Some model
  else None.

Definition to_step (j : t) : option ProcessStep.t :=
  match j with
  | Obj p =>
      i ← field "id" to_string p;
      n ← field "name" to_string p;
      d ← field "description" to_string p;
      ins ← field "inputs" to_string p;
      c ← field_opt "conditions" to_string p;
      Some (ProcessStep.mk i n d ins c)
  | _ => None
  end.

Definition to_metric (j : t) : option SimulationMetric.t :=
  match j with
  | Obj p =>
      n ← field "name" to_string p;
      v ← field "value" to_number p;
      u ← field "unit" to_string p;
      c ← field "category" to_category p;
      Some (SimulationMetric.mk n v u c)
  | _ => None
  end.

Definition to_log (j : t) : option SimulationLog.t :=
  match j with
  | Obj p =>
      i ← field "stepId" to_string p;
      n ← field "stepName" to_string p;
      o ← field "outcome" to_string p;
      d ← field "details" to_string p;
      s ← field "status" to_status p;
      Some (SimulationLog.mk i n o d s)
  | _ => None
  end.

Definition to_result (j : t) : option SimulationResult.t :=
  match j with
  | Obj p =>
      i ← field "id" to_string p;
      ts ← field "timestamp" to_number p;
      ty ← field "type" to_type p;
      ms ← field "metrics" (to_list to_metric) p;
      ls ← field "logs" (to_list to_log) p;
      s ← field "summary" to_string p;
      a ← field "assumptions" (to_list to_string) p;
      Some (SimulationResult.mk i ts ty ms ls s a)
  | _ => None
  end.

Definition to_message (j : t) : option ChatMessage.t :=
  match j with
  | Obj p =>
      r ← field "role" to_role p;
      x ← field "text" to_string p;
      o ← field_opt "isOptimizedProposal" to_bool p;
      pp ← field_opt "proposedProcess" (to_list to_step) p;
      Some (ChatMessage.mk r x o pp)
  | _ => None
  end.

(** A number that a JSON text carries unchanged. *)
Definition exact (x : float) : bool :=
  PrimFloat.is_finite x && negb (PrimFloat.is_zero x && (1 / x <? 0)%float).

End Json.

(** ** [components/ProcessBuilder.tsx] *)

Module ProcessBuilder.




(** [steps.filter(s => s.id !== id)] *)
Definition handleDelete (id : string) (steps : list ProcessStep.t)
  : list ProcessStep.t :=
  List.filter (λ s, negb (String.eqb (ProcessStep.id s) id)) steps.

(** The fields the editor updates. *)
Inductive Field := name | description | inputs | conditions.

(** [{ ...s, [field]: value }] *)
Definition withField (field : Field) (value : string) (s : ProcessStep.t)
  : ProcessStep.t :=
  match field with
  | name =>
      ProcessStep.mk (ProcessStep.id s) value (ProcessStep.description s)
        (ProcessStep.inputs s) (ProcessStep.conditions s)
  | description =>
      ProcessStep.mk (ProcessStep.id s) (ProcessStep.name s) value
        (ProcessStep.inputs s) (ProcessStep.conditions s)
  | inputs =>
      ProcessStep.mk (ProcessStep.id s) (ProcessStep.name s)
        (ProcessStep.description s) value (ProcessStep.conditions s)
  | conditions =>
      ProcessStep.mk (ProcessStep.id s) (ProcessStep.name s)
        (ProcessStep.description s) (ProcessStep.inputs s) (Some value)
  end.

(** [steps.map(s => s.id === id ? { ...s, [field]: value } : s)] *)
Definition handleUpdateStep (id : string) (field : Field) (value : string)
    (steps : list ProcessStep.t) : list ProcessStep.t :=
  (λ s, if String.eqb (ProcessStep.id s) id then withField field value s else s)
    <$> steps.

(** What [handleImport] did. *)
Inductive Imported :=
| NothingToImport                       (* the text is blank *)
| NeedApiKey                            (* onNeedApiKey?.() *)
| StepsSet (steps : list ProcessStep.t) (* setSteps(extractedSteps) *)
| ImportFailed (alert : string).

Definition handleImport (env : GeminiService.ImportEnv)
    (apiKey importText : string) : Imported :=
  if JS.blank importText then NothingToImport
  else if negb (JS.truthy_str apiKey) then NeedApiKey
  else
    match GeminiService.settled
            (GeminiService.parseProcessDescription env apiKey importText) with
    | GeminiService.Fulfilled extractedSteps => StepsSet extractedSteps
    | GeminiService.RejectedWith _ =>
        ImportFailed
          "Failed to parse process description. Please check your API Key and try again."
    end.




End ProcessBuilder.

(** ** [components/ApiKeyModal.tsx] *)

Module ApiKeyModal.

(** [handleSubmit]: the argument of [setApiKey], when it is called. *)
Definition handleSubmit (inputKey : string) : option string :=
  if JS.truthy_str (JS.trim inputKey) then Some (JS.trim inputKey) else None.

End ApiKeyModal.

(** ** [components/SimulationViewer.tsx] *)

Module SimulationViewer.

(** What the component renders. *)
Inductive View :=
| Simulating                          (* "AI is simulating process dynamics..." *)
| NoData                              (* "No simulation data available." *)
| Results (result : SimulationResult.t).

Definition render (result : option SimulationResult.t) (isLoading : bool)
  : View :=
  if isLoading then Simulating
  else match result with
       | None => NoData
       | Some r => Results r
       end.

(** The classes [getMetricColor] gives a category. *)
Definition getMetricColor (c : Category) : string :=
  match c with
  | efficiency => "bg-green-100 text-green-700"
  | waste => "bg-red-100 text-red-700"
  | yield => "bg-blue-100 text-blue-700"
  | throughput => "bg-purple-100 text-purple-700"
  | other => "bg-slate-100 text-slate-700"
  end.

End SimulationViewer.

(** ** [components/ChatPanel.tsx] *)

Module ChatPanel.

Record Props := mkProps {
  chatHistory : list ChatMessage.t;
  currentProcessName : string;            (* currentProcess.name *)
  currentProcessSteps : list ProcessStep.t; (* currentProcess.steps *)
  simulationResult : option SimulationResult.t;
  apiKey : string
}.

(** The component's own state. *)
Record Local := mkLocal {
  input : string;
  isLoading : bool
}.

Definition errorText : string :=
  "Sorry, I encountered an error connecting to the AI. Please check your API Key.".

Record Sent := mkSent {
  local : Local;
  (* the arguments of the calls of [setChatHistory], in order *)
  histories : list (list ChatMessage.t);
  requests : list GeminiService.ChatRequest
}.

Definition handleSend (sendMessage : GeminiService.ChatRequest → GeminiService.ChatReply)
    (p : Props) (l : Local) : Sent :=
  if JS.blank (input l) || isLoading l then mkSent l [] []
  else
    let userMsg := ChatMessage.mk user (input l) None None in
    let newHistory := chatHistory p ++ [userMsg] in
    let call :=
      GeminiService.chatWithProcessAI sendMessage (apiKey p) newHistory
        (input l) (currentProcessName p) (currentProcessSteps p)
        (simulationResult p) in
    let last :=
      match GeminiService.settled call with
      | GeminiService.Fulfilled response =>
          newHistory ++
            [ChatMessage.mk model (GeminiService.text response)
               (Some (JS.is_object (GeminiService.proposedProcess response)))
               (GeminiService.proposedProcess response)]
      | GeminiService.RejectedWith _ =>
          newHistory ++ [ChatMessage.mk model errorText None None]
      end in
    mkSent (mkLocal "" false) [newHistory; last] (GeminiService.issued call).

End ChatPanel.

(** ** [App.tsx] *)

Module App.

(** The record of the application state. *)
Definition STORAGE_KEY : string := "process_ai_state_v2".

Inductive Tab := build | results | compare.

(** The [useState] cells of the component. *)
Record State := mkState {
  apiKey : string;
  showApiKeyModal : bool;
  activeTab : Tab;
  processName : string;
  steps : list ProcessStep.t;
  baselineResult : option SimulationResult.t;
  optimizedResult : option SimulationResult.t;
  chatHistory : list ChatMessage.t;
  isSimulating : bool
}.

(** The initial values given to [useState]. *)
Definition initial : State :=
  {| apiKey := "";
     showApiKeyModal := false;
     activeTab := build;
     processName := "My Process";
     steps := [];
     baselineResult := None;
     optimizedResult := None;
     chatHistory := [];
     isSimulating := false |}.

Definition setApiKey (v : string) (s : State) : State :=
  mkState v (showApiKeyModal s) (activeTab s) (processName s) (steps s)
    (baselineResult s) (optimizedResult s) (chatHistory s) (isSimulating s).
Definition setShowApiKeyModal (v : bool) (s : State) : State :=
  mkState (apiKey s) v (activeTab s) (processName s) (steps s)
    (baselineResult s) (optimizedResult s) (chatHistory s) (isSimulating s).
Definition setActiveTab (v : Tab) (s : State) : State :=
  mkState (apiKey s) (showApiKeyModal s) v (processName s) (steps s)
    (baselineResult s) (optimizedResult s) (chatHistory s) (isSimulating s).
Definition setProcessName (v : string) (s : State) : State :=
  mkState (apiKey s) (showApiKeyModal s) (activeTab s) v (steps s)
    (baselineResult s) (optimizedResult s) (chatHistory s) (isSimulating s).
Definition setSteps (v : list ProcessStep.t) (s : State) : State :=
  mkState (apiKey s) (showApiKeyModal s) (activeTab s) (processName s) v
    (baselineResult s) (optimizedResult s) (chatHistory s) (isSimulating s).
Definition setBaselineResult (v : option SimulationResult.t) (s : State) : State :=
  mkState (apiKey s) (showApiKeyModal s) (activeTab s) (processName s) (steps s)
    v (optimizedResult s) (chatHistory s) (isSimulating s).
Definition setOptimizedResult (v : option SimulationResult.t) (s : State) : State :=
  mkState (apiKey s) (showApiKeyModal s) (activeTab s) (processName s) (steps s)
    (baselineResult s) v (chatHistory s) (isSimulating s).
Definition setChatHistory (v : list ChatMessage.t) (s : State) : State :=
  mkState (apiKey s) (showApiKeyModal s) (activeTab s) (processName s) (steps s)
    (baselineResult s) (optimizedResult s) v (isSimulating s).
Definition setIsSimulating (v : bool) (s : State) : State :=
  mkState (apiKey s) (showApiKeyModal s) (activeTab s) (processName s) (steps s)
    (baselineResult s) (optimizedResult s) (chatHistory s) v.

(** *** Persistence *)

(** A string held by [localStorage]: the JSON text of a document, or a
    string that is stored as is and that [JSON.parse] does not accept. *)
Inductive Item :=
| JsonText (doc : Json.t)
| Plain (s : string).

(** [JSON.parse(saved)]; [None] when it throws. *)
Definition JSON_parse (i : Item) : option Json.t :=
  match i with
  | JsonText doc => Some doc
  | Plain _ => None
  end.

(** [if (saved)]: a JSON text is never the empty string. *)
Definition truthy_item (i : Item) : bool :=
  match i with
  | JsonText _ => true
  | Plain s => JS.truthy_str s
  end.

(** The five persisted fields. *)
Record Snapshot := mkSnapshot {
  snap_processName : string;
  snap_steps : list ProcessStep.t;
  snap_baselineResult : option SimulationResult.t;
  snap_optimizedResult : option SimulationResult.t;
  snap_chatHistory : list ChatMessage.t
}.

Definition snapshot (s : State) : Snapshot :=
  mkSnapshot (processName s) (steps s) (baselineResult s)
    (optimizedResult s) (chatHistory s).

Definition defaultSnapshot : Snapshot := snapshot initial.

(** [JSON.stringify(state)] in the save effect. *)
Definition stringify (x : Snapshot) : Json.t :=
  Json.Obj
    [("processName", Json.Str (snap_processName x));
     ("steps", Json.of_list Json.of_step (snap_steps x));
     ("baselineResult", Json.nullable Json.of_result (snap_baselineResult x));
     ("optimizedResult", Json.nullable Json.of_result (snap_optimizedResult x));
     ("chatHistory", Json.of_list Json.of_message (snap_chatHistory x))].

(** The save effect: [localStorage.setItem(STORAGE_KEY, ...)]. *)
Definition saveState (s : State) (ls : gmap string Item) : gmap string Item :=
  <[STORAGE_KEY := JsonText (stringify (snapshot s))]> ls.

(** [parsed.processName || 'My Process'] *)
Definition read_processName (properties : list (string * Json.t))
  : option string :=
  match Json.prop "processName" properties with
  | None => Some "My Process"
  | Some j =>
      if Json.truthy j then Json.to_string j else Some "My Process"
  end.

(** [parsed.steps || []] and [parsed.chatHistory || []] *)
Definition read_list {A : Type} (k : string) (dec : Json.t → option A)
    (properties : list (string * Json.t)) : option (list A) :=
  match Json.prop k properties with
  | None => Some []
  | Some j => if Json.truthy j then Json.to_list dec j else Some []
  end.

(** [parsed.baselineResult] and [parsed.optimizedResult], passed to the
    setter as they are. *)
Definition read_result (k : string) (properties : list (string * Json.t))
  : option (option SimulationResult.t) :=
  match Json.prop k properties with
  | None | Some Json.Null => Some None
  | Some j => Some <$> Json.to_result j
  end.

Definition restore (x : Snapshot) (s : State) : State :=
  setChatHistory (snap_chatHistory x)
    (setOptimizedResult (snap_optimizedResult x)
       (setBaselineResult (snap_baselineResult x)
          (setSteps (snap_steps x)
             (setProcessName (snap_processName x) s)))).

(** How the load effect ends. *)
Inductive Loaded :=
| Kept                      (* nothing saved, or the [catch] branch *)
| Restored (x : Snapshot)   (* the five setters ran *)
| Untyped.                  (* the setters ran on values outside the data model *)

Definition readSnapshot (doc : Json.t) : Loaded :=
  match doc with
  | Json.Null => Kept       (* [parsed.processName] throws a TypeError *)
  | Json.Obj p =>
      match read_processName p, read_list "steps" Json.to_step p,
            read_result "baselineResult" p, read_result "optimizedResult" p,
            read_list "chatHistory" Json.to_message p with
      | Some n, Some st, Some b, Some o, Some h =>
          Restored (mkSnapshot n st b o h)
      | _, _, _, _, _ => Untyped
      end
  | _ => Restored (mkSnapshot "My Process" [] None None [])
  end.

(** The load effect. *)
Definition load (ls : gmap string Item) : Loaded :=
  match ls !! STORAGE_KEY with
  | None => Kept
  | Some saved =>
      if truthy_item saved then
        match JSON_parse saved with
        | Some parsed => readSnapshot parsed
        | None => Kept
        end
      else Kept
  end.

Definition loadState (ls : gmap string Item) (s : State) : option State :=
  match load ls with
  | Kept => Some s
  | Restored x => Some (restore x s)
  | Untyped => None
  end.

(** *** Handlers *)

(** The arguments of a call of [simulateProcess]. *)
Record Simulate := mkSimulate {
  on_apiKey : string;
  on_processName : string;
  on_steps : list ProcessStep.t;
  on_type : RunType;
  on_referenceMetrics : option (list string)
}.

Definition simulate (env : GeminiService.SimulationEnv) (c : Simulate) :=
  GeminiService.simulateProcess env (on_apiKey c) (on_processName c)
    (on_steps c) (on_type c) (on_referenceMetrics c).

(** What a handler did besides setting state. *)
Record Run := mkRun {
  state : State;
  calls : list Simulate;                           (* of simulateProcess *)
  requests : list GeminiService.SimulationRequest; (* sent to the oracle *)
  alerts : list string
}.

(** [handleRunSimulation] up to its [await]: the state it leaves and the
    call it is waiting for, if any. *)
Definition handleRunSimulation_start (s : State) : State * option Simulate :=
  match steps s with
  | [] => (s, None)
  | _ :: _ =>
      if negb (JS.truthy_str (apiKey s)) then (setShowApiKeyModal true s, None)
      else (setActiveTab results (setIsSimulating true s),
            Some (mkSimulate (apiKey s) (processName s) (steps s) BASELINE None))
  end.

(** ... and from the moment the promise settles, on the state of that
    moment. *)
Definition handleRunSimulation_settle
    (p : GeminiService.Promise SimulationResult.t) (s : State)
  : State * list string :=
  match p with
  | GeminiService.Fulfilled result =>
      (setIsSimulating false (setBaselineResult (Some result) s), [])
  | GeminiService.RejectedWith _ =>
      (setIsSimulating false s,
       ["Simulation failed. Check API Key configuration."])
  end.

(** A handler run with nothing else happening during the [await]. *)
Definition complete (env : GeminiService.SimulationEnv)
    (start : State * option Simulate)
    (settle : GeminiService.Promise SimulationResult.t → State → State * list string)
  : Run :=
  match start with
  | (s, None) => mkRun s [] [] []
  | (s, Some c) =>
      let call := simulate env c in
      let settled := settle (GeminiService.settled call) s in
      mkRun settled.1 [c] (GeminiService.issued call) settled.2
  end.

Definition handleRunSimulation (env : GeminiService.SimulationEnv)
    (s : State) : Run :=
  complete env (handleRunSimulation_start s) handleRunSimulation_settle.

Definition handleApplyOptimization_start (newSteps : list ProcessStep.t)
    (s : State) : State * option Simulate :=
  if negb (JS.truthy_str (apiKey s)) then (setShowApiKeyModal true s, None)
  else
    let referenceMetrics :=
      (fun r => List.map SimulationMetric.name (SimulationResult.metrics r))
        <$> baselineResult s in
    (setActiveTab results (setIsSimulating true (setSteps newSteps s)),
     Some (mkSimulate (apiKey s) (processName s) newSteps OPTIMIZED
             referenceMetrics)).

(** [closure] is the state the handler was created with: its
    [baselineResult] decides the switch to the comparison tab. *)
Definition handleApplyOptimization_settle (closure : State)
    (p : GeminiService.Promise SimulationResult.t) (s : State)
  : State * list string :=
  match p with
  | GeminiService.Fulfilled result =>
      let s1 := setOptimizedResult (Some result) s in
      let s2 := if JS.is_object (baselineResult closure)
                then setActiveTab compare s1 else s1 in
      (setIsSimulating false s2, [])
  | GeminiService.RejectedWith _ =>
      (setIsSimulating false s, ["Optimization simulation failed."])
  end.

Definition handleApplyOptimization (env : GeminiService.SimulationEnv)
    (newSteps : list ProcessStep.t) (s : State) : Run :=
  complete env (handleApplyOptimization_start newSteps s)
    (handleApplyOptimization_settle s).

(** [confirmed] is the answer to [confirm("Clear all data and start over?")]. *)
Definition handleReset (confirmed : bool) (s : State) (ls : gmap string Item)
  : State * gmap string Item :=
  if confirmed then
    (setActiveTab build
       (setChatHistory []
          (setOptimizedResult None
             (setBaselineResult None
                (setSteps [] (setProcessName "New Process" s))))),
     delete STORAGE_KEY ls)
  else (s, ls).

(** The render that follows a handler which called the setters of the
    persisted fields: the save effect runs on the new state.  (Its
    dependencies are compared by identity, and [handleReset] always hands
    a new array to [setSteps].) *)
Definition rendered (x : State * gmap string Item) : State * gmap string Item :=
  (x.1, saveState x.1 x.2).

(** The props given to [<ChatPanel>]. *)
Definition chatPanelProps (s : State) : ChatPanel.Props :=
  {| ChatPanel.chatHistory := chatHistory s;
     ChatPanel.currentProcessName := processName s;
     ChatPanel.currentProcessSteps := steps s;
     ChatPanel.simulationResult :=
       JS.obj_or_else (optimizedResult s) (baselineResult s);
     ChatPanel.apiKey := apiKey s |}.

(** *** The key *)

(** The record of the key, stored as it is and never parsed. *)
Definition API_KEY_STORAGE : string := "process_ai_api_key".

(** The effect that loads the key: [if (key) setApiKey(key)].  [None] when
    the record holds what [handleSetApiKey] never writes. *)
Definition loadApiKey (ls : gmap string Item) (s : State) : option State :=
  match ls !! API_KEY_STORAGE with
  | None => Some s
  | Some (Plain key) =>
      Some (if JS.truthy_str key then setApiKey key s else s)
  | Some (JsonText _) => None
  end.

Definition handleSetApiKey (key : string) (s : State) (ls : gmap string Item)
  : State * gmap string Item :=
  (setShowApiKeyModal false (setApiKey key s),
   <[API_KEY_STORAGE := Plain key]> ls).

(** [confirmed] is the answer to [confirm("Remove saved API Key?")]. *)
Definition clearApiKey (confirmed : bool) (s : State) (ls : gmap string Item)
  : State * gmap string Item :=
  if confirmed then (setApiKey "" s, delete API_KEY_STORAGE ls) else (s, ls).

(** Submitting the key dialog: [<ApiKeyModal setApiKey={handleSetApiKey}>]. *)
Definition submitApiKey (inputKey : string) (s : State) (ls : gmap string Item)
  : State * gmap string Item :=
  match ApiKeyModal.handleSubmit inputKey with
  | Some key => handleSetApiKey key s ls
  | None => (s, ls)
  end.

(** *** What is on screen *)

(** [disabled] of the three tab buttons. *)
Definition tabDisabled (t : Tab) (s : State) : bool :=
  match t with
  | build => false
  | results =>
      negb (JS.is_object (baselineResult s))
      && negb (JS.is_object (optimizedResult s))
      && negb (isSimulating s)
  | compare =>
      negb (JS.is_object (baselineResult s))
      || negb (JS.is_object (optimizedResult s))
  end.

(** A click on a tab button: a disabled button does nothing. *)
Definition clickTab (t : Tab) (s : State) : State :=
  if tabDisabled t s then s else setActiveTab t s.

(** [disabled] of the "Simulate Process" button, which is rendered on the
    build tab only. *)
Definition simulateDisabled (s : State) : bool :=
  match steps s with [] => true | _ :: _ => isSimulating s end.

Definition clickSimulate (env : GeminiService.SimulationEnv) (s : State)
  : State :=
  match activeTab s with
  | build => if simulateDisabled s then s else state (handleRunSimulation env s)
  | results | compare => s
  end.

(** The workspace pane. *)
Inductive Pane :=
| Builder
| Viewer (v : SimulationViewer.View)
| Comparison (baseline optimized : SimulationResult.t)
| Blank.

Definition pane (s : State) : Pane :=
  match activeTab s with
  | build => Builder
  | results =>
      Viewer (SimulationViewer.render
                (JS.obj_or_else (optimizedResult s) (baselineResult s))
                (isSimulating s))
  | compare =>
      match baselineResult s, optimizedResult s with
      | Some b, Some o => Comparison b o
      | _, _ => Blank
      end
  end.

(** *** Sending a chat message *)

(** [handleSend] of the chat panel on the props [App] gives it:
    [setChatHistory] is the setter of [App]. *)
Definition sendChat (sendMessage : GeminiService.ChatRequest → GeminiService.ChatReply)
    (l : ChatPanel.Local) (s : State) : State * ChatPanel.Local :=
  let sent := ChatPanel.handleSend sendMessage (chatPanelProps s) l in
  (fold_left (λ s' h, setChatHistory h s') (ChatPanel.histories sent) s,
   ChatPanel.local sent).

(** *** Events *)

(** What the user can do, with the answer of the environment where one is
    awaited.  An awaited answer arrives before the next event. *)
Inductive Event :=
| ClickTab (t : Tab)
| ClickSimulate (env : GeminiService.SimulationEnv)
| ApplyOptimization (env : GeminiService.SimulationEnv)
    (newSteps : list ProcessStep.t)
| Reset (confirmed : bool)
| EditName (name : string)
| EditSteps (steps : list ProcessStep.t)
| Chat (history : list ChatMessage.t)
| SubmitKey (inputKey : string)
| CloseKeyDialog
| ClearKey (confirmed : bool).

Definition dispatch (s : State) (e : Event) : State :=
  match e with
  | ClickTab t => clickTab t s
  | ClickSimulate env => clickSimulate env s
  | ApplyOptimization env newSteps =>
      state (handleApplyOptimization env newSteps s)
  | Reset confirmed => (handleReset confirmed s ∅).1
  | EditName name => setProcessName name s
  | EditSteps steps => setSteps steps s
  | Chat history => setChatHistory history s
  | SubmitKey inputKey => (submitApiKey inputKey s ∅).1
  | CloseKeyDialog => setShowApiKeyModal false s
  | ClearKey confirmed => (clearApiKey confirmed s ∅).1
  end.

End App.

(** ** Vocabulary of the statements *)

(** The metric names of a result, in order. *)
Definition metricNames (r : SimulationResult.t) : list string :=
  SimulationMetric.name <$> SimulationResult.metrics r.

(** The identifier the oracle supplied for a step, when [s.id] is truthy. *)
Definition suppliedId (s : GeminiService.RawStep) : option string :=
  match GeminiService.raw_id s with
  | Some v => if JS.truthy_str v then Some v else None
  | None => None
  end.

(** The identifiers the oracle supplied, in order. *)
Definition supplied (raw : list GeminiService.RawStep) : list string :=
  omap suppliedId raw.

(** How many steps came without a usable identifier. *)
Fixpoint missing (raw : list GeminiService.RawStep) : nat :=
  match raw with
  | [] => 0
  | s :: rest =>
      match suppliedId s with
      | Some _ => missing rest
      | None => S (missing rest)
      end
  end.

(** The identifiers [crypto.randomUUID] hands out for these steps, when [n]
    were drawn before. *)
Definition drawn (randomUUID : nat → string) (n : nat)
    (raw : list GeminiService.RawStep) : list string :=
  randomUUID <$> seq n (missing raw).

(** The numbers of a result are carried unchanged by a JSON text. *)
Definition exactResult (r : SimulationResult.t) : bool :=
  Json.exact (SimulationResult.timestamp r)
  && forallb (λ m, Json.exact (SimulationMetric.value m))
       (SimulationResult.metrics r).

(** A snapshot that the persisted record can hold as it is: a non-empty
    name, and numbers that a JSON text carries unchanged. *)
Definition storable (x : App.Snapshot) : bool :=
  JS.truthy_str (App.snap_processName x)
  && from_option exactResult true (App.snap_baselineResult x)
  && from_option exactResult true (App.snap_optimizedResult x).

(** The value of a field that the editor updates. *)
Definition fieldOf (f : ProcessBuilder.Field) (s : ProcessStep.t)
  : option string :=
  match f with
  | ProcessBuilder.name => Some (ProcessStep.name s)
  | ProcessBuilder.description => Some (ProcessStep.description s)
  | ProcessBuilder.inputs => Some (ProcessStep.inputs s)
  | ProcessBuilder.conditions => ProcessStep.conditions s
  end.

(** The busy flag around a call: set while the call is awaited and cleared
    when the handler is done; left alone when the handler returns without
    calling. *)
Definition busyAroundCall (s : App.State)
    (start : App.State * option App.Simulate) (run : App.Run) : Prop :=
  match start.2 with
  | Some _ =>
      App.isSimulating start.1 = true ∧
      App.isSimulating (App.state run) = false ∧
      length (App.calls run) = 1
  | None =>
      App.isSimulating start.1 = App.isSimulating s ∧
      App.isSimulating (App.state run) = App.isSimulating s ∧
      App.calls run = []
  end.

(** The persisted fields as [handleReset] sets them. *)
Definition resetSnapshot : App.Snapshot :=
  App.mkSnapshot "New Process" [] None None [].

(** ** Sample data *)

Module Sample.

Definition cut : ProcessStep.t :=
  ProcessStep.mk "1" "Cut" "Cut sheet" "Steel" None.

Definition weld : ProcessStep.t :=
  ProcessStep.mk "2" "Weld" "Weld the parts" "Parts" (Some "200C").

Definition yield80 := SimulationMetric.mk "Yield" 80%float "%" yield.
Definition yield90 := SimulationMetric.mk "Yield" 90%float "%" yield.
Definition waste5 := SimulationMetric.mk "Waste" 5%float "kg" waste.
Definition cost12 := SimulationMetric.mk "Cost" 12%float "USD" other.

Definition cutLog := SimulationLog.mk "1" "Cut" "ok" "Sheet cut" success.

(** A baseline run with metrics Yield and Waste. *)
Definition baseline : SimulationResult.t :=
  SimulationResult.mk "b-1" 200%float BASELINE [yield80; waste5] [cutLog]
    "Baseline run" ["Nominal load"].

(** An optimized run with metrics Yield and Cost. *)
Definition optimized : SimulationResult.t :=
  SimulationResult.mk "o-1" 100%float OPTIMIZED [yield90; cost12] [cutLog]
    "Optimized run" [].

(** An oracle that answers every simulation request with the metric
    Cost alone. *)
Definition costOnly : GeminiService.SimulationEnv :=
  {| GeminiService.sim_generateContent := fun _ =>
       GeminiService.Parses
         (GeminiService.mkSimulationData [cost12] [cutLog] "Run" []);
     GeminiService.sim_randomUUID := "r-1";
     GeminiService.sim_now := 300%float |}.

Definition uuids (k : nat) : string :=
  nth k ["uuid-a"; "uuid-b"; "uuid-c"] "uuid-z".

(** An oracle that gives the same identifier to two imported steps. *)
Definition sameIdTwice : GeminiService.ImportEnv :=
  {| GeminiService.imp_generateContent := fun _ =>
       GeminiService.Parses
         [GeminiService.mkRawStep (Some "1") "Cut" "Cut sheet" (Some "Steel") None;
          GeminiService.mkRawStep (Some "1") "Weld" "Weld the parts" None None];
     GeminiService.imp_randomUUID := uuids |}.

(** An oracle that leaves out the identifier of the second and third of
    four steps (the third one is empty). *)
Definition idsLeftOut : GeminiService.ImportEnv :=
  {| GeminiService.imp_generateContent := fun _ =>
       GeminiService.Parses
         [GeminiService.mkRawStep (Some "1") "Cut" "Cut sheet" (Some "Steel") None;
          GeminiService.mkRawStep None "Weld" "Weld the parts" None None;
          GeminiService.mkRawStep (Some "") "Paint" "Paint the frame" None (Some "dry");
          GeminiService.mkRawStep (Some "4") "Pack" "Pack the frame" None None];
     GeminiService.imp_randomUUID := uuids |}.

(** An oracle that cannot be reached. *)
Definition offline : GeminiService.SimulationEnv :=
  {| GeminiService.sim_generateContent := fun _ => GeminiService.Rejects;
     GeminiService.sim_randomUUID := "r-0";
     GeminiService.sim_now := 50%float |}.

(** An oracle answering at time [100], and one answering at time [200]. *)
Definition at100 : GeminiService.SimulationEnv :=
  {| GeminiService.sim_generateContent := fun _ =>
       GeminiService.Parses
         (GeminiService.mkSimulationData [yield90] [cutLog] "Optimized" []);
     GeminiService.sim_randomUUID := "r-100";
     GeminiService.sim_now := 100%float |}.

Definition at200 : GeminiService.SimulationEnv :=
  {| GeminiService.sim_generateContent := fun _ =>
       GeminiService.Parses
         (GeminiService.mkSimulationData [yield80] [cutLog] "Baseline" []);
     GeminiService.sim_randomUUID := "r-200";
     GeminiService.sim_now := 200%float |}.

Definition hello : ChatMessage.t :=
  ChatMessage.mk user "How can I reduce waste?" None None.

Definition proposal : ChatMessage.t :=
  ChatMessage.mk model "Weld after cutting." (Some true) (Some [cut; weld]).

(** A session with a credential, one step, both results and a chat. *)
Definition session : App.State :=
  {| App.apiKey := "key";
     App.showApiKeyModal := false;
     App.activeTab := App.compare;
     App.processName := "Frame line";
     App.steps := [cut; weld];
     App.baselineResult := Some baseline;
     App.optimizedResult := Some optimized;
     App.chatHistory := [hello; proposal];
     App.isSimulating := false |}.

(** A session with a credential and one step, before any simulation. *)
Definition fresh : App.State :=
  App.setSteps [cut] (App.setApiKey "key" App.initial).

(** The user has cleared the name field. *)
Definition unnamed : App.State := App.setProcessName "" session.

(** The oracle reported an overflowing throughput ([1e999]), and a
    negative zero. *)
Definition overflowing : App.State :=
  App.setBaselineResult
    (Some (SimulationResult.mk "b-2" 200%float BASELINE
             [SimulationMetric.mk "Throughput" infinity "1/h" throughput]
             [] "Overflow" []))
    session.

Definition negativeZero : App.State :=
  App.setBaselineResult
    (Some (SimulationResult.mk "b-3" 200%float BASELINE
             [SimulationMetric.mk "Drift" (-0)%float "mm" other]
             [] "No drift" []))
    session.

End Sample.

(** * Properties *)

(** Closing a decidable goal on concrete data by evaluation. *)
Ltac by_decide := apply (bool_decide_unpack _); vm_compute; exact I.

(** ** Facts on numbers *)

Section Numbers.
Local Open Scope float_scope.

(** Only the two zeros compare equal to [0]. *)
Lemma eqb_zero_inv (x : float) : (x =? 0) = true → x = 0 ∨ x = -0.
Proof.
  rewrite FloatAxioms.eqb_spec. intros H.
  destruct (Prim2SF x) as [s|s| |s m e] eqn:E.
  - destruct s; [right|left]; apply Prim2SF_inj; rewrite E; reflexivity.
  - destruct s; discriminate.
  - discriminate.
  - destruct s; discriminate.
Qed.

(** Subtracting from either zero gives the same number, unless a zero is
    subtracted. *)
Lemma sub_from_neg_zero (b : float) : (b =? 0) = false → -0 - b = 0 - b.
Proof.
  intros H. apply Prim2SF_inj. rewrite !sub_spec.
  rewrite FloatAxioms.eqb_spec in H.
  destruct (Prim2SF b) as [s|s| |s m e]; try reflexivity.
  destruct s; discriminate.
Qed.

Lemma truthy_num_zero (x : float) : (x =? 0) = true → JS.truthy_num x = false.
Proof. intros H. unfold JS.truthy_num, is_zero, zero. by rewrite H. Qed.

Lemma truthy_num_nonzero (x : float) :
  (x =? 0) = false → is_nan x = false → JS.truthy_num x = true.
Proof. intros H N. unfold JS.truthy_num, is_zero, zero. by rewrite H, N. Qed.

(** A number that is not [NaN] is truthy or a zero. *)
Lemma falsy_num_inv (x : float) :
  is_nan x = false → JS.truthy_num x = false → x = 0 ∨ x = -0.
Proof.
  intros N T. apply eqb_zero_inv.
  unfold JS.truthy_num, is_zero, zero in T. rewrite N in T.
  destruct (x =? 0); [done | discriminate].
Qed.

(** [o || 0] and [o] give the same delta against a non-zero baseline. *)
Lemma delta_of_num_or (b o : float) :
  (b =? 0) = false → is_nan o = false →
  ComparisonView.delta_of b (JS.num_or (Some o) 0) = ComparisonView.delta_of b o.
Proof.
  intros B N. unfold ComparisonView.delta_of, JS.num_or. rewrite B.
  destruct (JS.truthy_num o) eqn:T; [done |].
  destruct (falsy_num_inv o N T) as [-> | ->]; [done |].
  by rewrite (sub_from_neg_zero b B).
Qed.

End Numbers.

(** ** The comparison view *)

Section Comparison.
Local Open Scope float_scope.
Import ComparisonView.

Implicit Types (baseline optimized : SimulationResult.t).
Implicit Types (m : SimulationMetric.t) (n : string).

Lemma find_metric_Some n ms m :
  find_metric n ms = Some m → m ∈ ms ∧ SimulationMetric.name m = n.
Proof.
  unfold find_metric. intros H. apply List.find_some in H as [Hin Heq].
  split; [by apply list_elem_of_In | by apply String.eqb_eq].
Qed.

Lemma find_metric_None n ms :
  find_metric n ms = None ↔ n ∉ (SimulationMetric.name <$> ms).
Proof.
  unfold find_metric. induction ms as [|m ms IH]; simpl.
  - split; [intros _ | done]. by apply not_elem_of_nil.
  - rewrite not_elem_of_cons. destruct (String.eqb_spec (SimulationMetric.name m) n) as [E|E].
    + split; [discriminate | intros [? _]; congruence].
    + rewrite IH. split; [by intros ? | by intros [_ ?]].
Qed.

Lemma chartData_names baseline optimized :
  name <$> chartData baseline optimized = metricNames baseline.
Proof.
  unfold chartData, metricNames. rewrite <- list_fmap_compose. done.
Qed.

Lemma tableRows_keys baseline optimized :
  key <$> tableRows baseline optimized = metricNames baseline.
Proof.
  unfold tableRows, metricNames. rewrite <- list_fmap_compose. done.
Qed.

(** C5.  For a metric name found in both results, with values that are
    numbers (not [NaN], which no JSON text carries): [getDelta] is [0]
    when the baseline value is zero, and
    [((optimized - baseline) / baseline) * 100] otherwise. *)
Theorem getDelta_present baseline optimized n (mb mo : SimulationMetric.t) :
  find_metric n (SimulationResult.metrics baseline) = Some mb →
  find_metric n (SimulationResult.metrics optimized) = Some mo →
  is_nan (SimulationMetric.value mb) = false →
  is_nan (SimulationMetric.value mo) = false →
  getDelta baseline optimized n =
    if SimulationMetric.value mb =? 0 then 0
    else ((SimulationMetric.value mo - SimulationMetric.value mb)
            / SimulationMetric.value mb) * 100.
Proof.
  intros Hb Ho Nb No. unfold getDelta. rewrite Hb, Ho.
  change (delta_of (JS.num_or (Some (SimulationMetric.value mb)) 0)
                   (JS.num_or (Some (SimulationMetric.value mo)) 0) =
          if SimulationMetric.value mb =? 0 then 0
          else ((SimulationMetric.value mo - SimulationMetric.value mb)
                  / SimulationMetric.value mb) * 100).
  destruct (SimulationMetric.value mb =? 0) eqn:B.
  - unfold JS.num_or at 1. by rewrite (truthy_num_zero _ B).
  - unfold JS.num_or at 1. rewrite (truthy_num_nonzero _ B Nb).
    rewrite (delta_of_num_or _ _ B No). unfold delta_of. by rewrite B.
Qed.

(** A baseline value that is not a number counts as zero. *)
Example getDelta_nan_baseline (o : float) :
  delta_of (JS.num_or (Some nan) 0) o = 0.
Proof. reflexivity. Qed.

(** C9.  The comparison is keyed on the baseline metrics.  A name that
    only the optimized result has gives no chart entry and no table row;
    a baseline metric whose name the optimized result lacks is charted
    with [Optimized = 0], shown with no optimized value, and its delta is
    the one computed with [0] for the optimized value. *)
Theorem comparison_keyed_on_baseline baseline optimized :
  (∀ n, n ∈ metricNames optimized → n ∉ metricNames baseline →
        (n ∉ (name <$> chartData baseline optimized)) ∧
        (n ∉ (key <$> tableRows baseline optimized))) ∧
  (∀ m, m ∈ SimulationResult.metrics baseline →
        SimulationMetric.name m ∉ metricNames optimized →
        chartDatum optimized m ∈ chartData baseline optimized ∧
        Optimized (chartDatum optimized m) = 0 ∧
        tableRow baseline optimized m ∈ tableRows baseline optimized ∧
        optimizedValue (tableRow baseline optimized m) = None ∧
        delta (tableRow baseline optimized m)
          = getDelta baseline optimized (SimulationMetric.name m) ∧
        getDelta baseline optimized (SimulationMetric.name m)
          = delta_of
              (JS.num_or (SimulationMetric.value <$>
                 find_metric (SimulationMetric.name m)
                   (SimulationResult.metrics baseline)) 0)
              0).
Proof.
  split.
  - intros n _ Hn. by rewrite chartData_names, tableRows_keys.
  - intros m Hm Hn. apply find_metric_None in Hn.
    repeat split.
    + unfold chartData. by apply list_elem_of_fmap_2.
    + unfold chartDatum. simpl. by rewrite Hn.
    + unfold tableRows. by apply list_elem_of_fmap_2.
    + unfold tableRow. simpl. by rewrite Hn.
    + unfold getDelta. by rewrite Hn.
Qed.

End Comparison.

Section ComparisonWitnesses.

(** [getDelta] on the sample runs. *)
Example getDelta_sample_yield :
ComparisonView.getDelta Sample.baseline Sample.optimized "Yield" = 12.5%float.
Proof. reflexivity. Qed.

Lemma getDelta_present_witness :
ComparisonView.getDelta Sample.baseline Sample.optimized "Yield"
= (if (80 =? 0)%float then 0 else ((90 - 80) / 80) * 100)%float.
Proof.
apply (getDelta_present Sample.baseline Sample.optimized "Yield"
         Sample.yield80 Sample.yield90); reflexivity.
Defined.

Lemma comparison_keyed_on_baseline_witness :
("Cost" ∉ (ComparisonView.name <$>
             ComparisonView.chartData Sample.baseline Sample.optimized)) ∧
ComparisonView.Optimized
  (ComparisonView.chartDatum Sample.optimized Sample.waste5) = 0%float ∧
ComparisonView.getDelta Sample.baseline Sample.optimized "Waste"
= (-100)%float.
Proof.
destruct (comparison_keyed_on_baseline Sample.baseline Sample.optimized)
  as [Honly Hlack].
split.
- apply (Honly "Cost"); by_decide.
- destruct (Hlack Sample.waste5) as (_ & Hzero & _ & _ & _ & Hdelta).
  + unfold Sample.baseline, SimulationResult.metrics. apply list_elem_of_In.
    right; left; reflexivity.
  + by_decide.
  + split; [exact Hzero |].
    change "Waste" with (SimulationMetric.name Sample.waste5).
    rewrite Hdelta. reflexivity.
Defined.

End ComparisonWitnesses.

(** ** The oracle adapters *)

Section Adapters.
Import GeminiService.

Lemma truthy_str_nonempty (s : string) : JS.truthy_str s = true ↔ s ≠ "".
Proof.
  unfold JS.truthy_str. destruct (String.eqb_spec s ""); simpl; split;
    congruence.
Qed.

(** With a credential, [simulateProcess] issues exactly one request. *)
Lemma simulateProcess_with_credential env apiKey processName steps type refs :
  JS.truthy_str apiKey = true →
  let request :=
    mkSimulationRequest MODEL processName steps (metricInstruction refs) in
  simulateProcess env apiKey processName steps type refs =
    mkCall [request]
      (readJson (sim_generateContent env request) (fun data =>
         SimulationResult.mk (sim_randomUUID env) (sim_now env) type
           (metrics data) (logs data) (summary data) (assumptions data))).
Proof. intros K. unfold simulateProcess. by rewrite K. Qed.

(** C1, as the code has it.  With a non-empty list of reference names the
    request tells the oracle to include them, and whatever parses is
    accepted: the result carries the metrics of the response unchanged,
    so its names include the reference names exactly when the response's
    names do. *)
Theorem simulateProcess_keeps_response_metrics env apiKey processName steps
    type (refs : list string) data :
  JS.truthy_str apiKey = true →
  refs ≠ [] →
  sim_generateContent env
    (mkSimulationRequest MODEL processName steps (MustInclude refs))
    = Parses data →
  let call := simulateProcess env apiKey processName steps type (Some refs) in
  issued call
    = [mkSimulationRequest MODEL processName steps (MustInclude refs)] ∧
  ∃ r, settled call = Fulfilled r ∧
       SimulationResult.type r = type ∧
       SimulationResult.metrics r = metrics data ∧
       (refs ⊆ metricNames r ↔ refs ⊆ SimulationMetric.name <$> metrics data).
Proof.
  intros K Hrefs Hreply call. subst call.
  rewrite (simulateProcess_with_credential _ _ _ _ _ _ K).
  assert (metricInstruction (Some refs) = MustInclude refs) as ->
    by (by destruct refs).
  simpl. rewrite Hreply. simpl. split; [done |].
  eexists. split; [done |]. done.
Qed.

(** C1 fails as stated: a response without the reference name "Yield" is
    returned as the result, not rejected. *)
Lemma simulateProcess_accepts_missing_reference_name :
  ∃ r, settled (simulateProcess Sample.costOnly "key" "My Process"
                  [Sample.cut] OPTIMIZED (Some ["Yield"])) = Fulfilled r ∧
       metricNames r = ["Cost"] ∧
       ¬ (["Yield"] ⊆ metricNames r).
Proof.
  eexists. split; [reflexivity |]. split; [reflexivity |].
  intros H. cut ("Yield" ∉ ["Cost"]); [| by_decide].
  intros N. apply N. apply (H "Yield"). by_decide.
Qed.

(** C7.  Without a credential [simulateProcess] fails with the error of
    class [OracleUnavailable] and has issued no request. *)
Theorem simulateProcess_without_credential env processName steps type refs :
  let call := simulateProcess env "" processName steps type refs in
  issued call = [] ∧
  settled call = RejectedWith ApiKeyMissing ∧
  classify ApiKeyMissing = OracleUnavailable.
Proof. done. Qed.

(** *** Identifiers of the imported steps *)

Lemma idOrFresh_supplied randomUUID n (s : RawStep) v :
  suppliedId s = Some v → idOrFresh randomUUID n (raw_id s) = (v, n).
Proof.
  unfold suppliedId, idOrFresh. destruct (raw_id s) as [i|]; [| done].
  destruct (JS.truthy_str i); [| done]. by intros [= ->].
Qed.

Lemma idOrFresh_missing randomUUID n (s : RawStep) :
  suppliedId s = None →
  idOrFresh randomUUID n (raw_id s) = (randomUUID n, S n).
Proof.
  unfold suppliedId, idOrFresh. destruct (raw_id s) as [i|]; [| done].
  by destruct (JS.truthy_str i).
Qed.

Lemma mapSteps_cons randomUUID n (s : RawStep) rest :
  mapSteps randomUUID n (s :: rest) =
    ProcessStep.mk (idOrFresh randomUUID n (raw_id s)).1
      (raw_name s) (raw_description s)
      (JS.str_or (raw_inputs s) "None")
      (Some (JS.str_or (raw_conditions s) ""))
    :: mapSteps randomUUID (idOrFresh randomUUID n (raw_id s)).2 rest.
Proof. simpl. by destruct (idOrFresh randomUUID n (raw_id s)). Qed.

Lemma mapSteps_length randomUUID raw :
  ∀ n, length (mapSteps randomUUID n raw) = length raw.
Proof.
  induction raw as [|s rest IH]; intros n; [done |].
  rewrite mapSteps_cons. simpl. by rewrite IH.
Qed.

(** The identifiers that come out are the supplied ones and the drawn
    ones, up to order. *)
Lemma mapSteps_ids randomUUID raw :
  ∀ n, ProcessStep.id <$> mapSteps randomUUID n raw
       ≡ₚ supplied raw ++ drawn randomUUID n raw.
Proof.
  induction raw as [|s rest IH]; intros n; [done |].
  rewrite mapSteps_cons, fmap_cons. unfold supplied, drawn. simpl.
  destruct (suppliedId s) as [v|] eqn:E.
  - rewrite (idOrFresh_supplied _ _ _ _ E). simpl. by rewrite IH.
  - rewrite (idOrFresh_missing _ _ _ E). simpl. rewrite IH.
    unfold supplied, drawn. by rewrite Permutation_middle.
Qed.

(** A supplied identifier is kept, at its position. *)
Lemma mapSteps_keeps_supplied randomUUID raw :
  ∀ n, Forall2 (λ s out, ∀ v, suppliedId s = Some v → ProcessStep.id out = v)
         raw (mapSteps randomUUID n raw).
Proof.
  induction raw as [|s rest IH]; intros n; [constructor |].
  rewrite mapSteps_cons. constructor; [| apply IH].
  intros v E. by rewrite (idOrFresh_supplied _ _ _ _ E).
Qed.


(** C2, as the code has it.  A fresh identifier is drawn only for a step
    whose [id] is missing or empty; an identifier the oracle supplied is
    kept.  The identifiers returned are therefore pairwise distinct when
    the supplied ones and the drawn ones are. *)
Theorem parseProcessDescription_ids env apiKey text (raw : list RawStep) :
  JS.truthy_str apiKey = true →
  imp_generateContent env (mkImportRequest MODEL text) = Parses raw →
  NoDup (supplied raw ++ drawn (imp_randomUUID env) 0 raw) →
  ∃ steps,
    settled (parseProcessDescription env apiKey text) = Fulfilled steps ∧
    length steps = length raw ∧
    Forall2 (λ s out, ∀ v, suppliedId s = Some v → ProcessStep.id out = v)
      raw steps ∧
    NoDup (ProcessStep.id <$> steps).
Proof.
  intros K Hreply Hnodup. unfold parseProcessDescription. rewrite K. simpl.
  rewrite Hreply. simpl. eexists. split; [done |]. repeat split.
  - apply mapSteps_length.
  - apply mapSteps_keeps_supplied.
  - by rewrite mapSteps_ids.
Qed.

(** C2 fails as stated: two steps that come with the same identifier keep
    it. *)
Lemma parseProcessDescription_keeps_duplicate_ids :
  ∃ steps,
    settled (parseProcessDescription Sample.sameIdTwice "key" "Cut, then weld.")
      = Fulfilled steps ∧
    ProcessStep.id <$> steps = ["1"; "1"] ∧
    ¬ NoDup (ProcessStep.id <$> steps).
Proof.
  eexists. split; [reflexivity |]. split; [reflexivity |].
  intros H. apply NoDup_cons in H as [H _]. apply H. by_decide.
Qed.

Example parseProcessDescription_fills_missing_ids :
  ∃ steps,
    settled (parseProcessDescription Sample.idsLeftOut "key" "Four steps.")
      = Fulfilled steps ∧
    ProcessStep.id <$> steps = ["1"; "uuid-a"; "uuid-b"; "4"].
Proof. eexists. split; reflexivity. Qed.

Lemma parseProcessDescription_ids_witness :
  ∃ steps,
    settled (parseProcessDescription Sample.idsLeftOut "key" "Four steps.")
      = Fulfilled steps ∧
    NoDup (ProcessStep.id <$> steps).
Proof.
  destruct (parseProcessDescription_ids Sample.idsLeftOut "key" "Four steps."
              [mkRawStep (Some "1") "Cut" "Cut sheet" (Some "Steel") None;
               mkRawStep None "Weld" "Weld the parts" None None;
               mkRawStep (Some "") "Paint" "Paint the frame" None (Some "dry");
               mkRawStep (Some "4") "Pack" "Pack the frame" None None])
    as (steps & Hsettled & _ & _ & Hnodup).
  - reflexivity.
  - reflexivity.
  - by_decide.
  - exists steps. split; [exact Hsettled | exact Hnodup].
Defined.

Lemma simulateProcess_keeps_response_metrics_witness :
  ∃ r, settled (simulateProcess Sample.costOnly "key" "My Process"
                  [Sample.cut] OPTIMIZED (Some ["Cost"])) = Fulfilled r ∧
       SimulationResult.metrics r = [Sample.cost12].
Proof.
  destruct (simulateProcess_keeps_response_metrics Sample.costOnly "key"
              "My Process" [Sample.cut] OPTIMIZED ["Cost"]
              (mkSimulationData [Sample.cost12] [Sample.cutLog] "Run" []))
    as (_ & r & Hsettled & _ & Hmetrics & _).
  - reflexivity.
  - discriminate.
  - reflexivity.
  - exists r. split; [exact Hsettled | exact Hmetrics].
Defined.

End Adapters.

(** ** The step editor *)

Section Builder.
Import ProcessBuilder.



(** Deleting goes by identifier: no step with that identifier is left. *)
Lemma handleDelete_gone i (steps : list ProcessStep.t) :
  i ∉ (ProcessStep.id <$> handleDelete i steps).
Proof.
  unfold handleDelete. intros (s & -> & Hs)%list_elem_of_fmap.
  apply list_elem_of_In, filter_In in Hs as [_ Hs].
  by rewrite String.eqb_refl in Hs.
Qed.

(** Steps imported with the same identifier are deleted together. *)
Example handleDelete_same_id :
  ∃ steps,
    handleImport Sample.sameIdTwice "key" "Cut, then weld." = StepsSet steps ∧
    length steps = 2 ∧
    handleDelete "1" steps = [].
Proof. eexists. split; [reflexivity |]. split; reflexivity. Qed.

End Builder.

(** ** Persistence *)

Section Persistence.
Local Open Scope float_scope.
Import App.

Lemma of_number_exact (x : float) : Json.exact x = true → Json.of_number x = Json.Num x.
Proof.
  unfold Json.exact, Json.of_number. intros [F Z]%andb_prop. rewrite F.
  destruct (is_zero x) eqn:E; [| done].
  destruct (eqb_zero_inv x E) as [-> | ->]; [done | discriminate].
Qed.

Lemma to_category_name (c : Category) :
  Json.to_category (Json.Str (Json.category_name c)) = Some c.
Proof. by destruct c. Qed.

Lemma to_status_name (st : Status) :
  Json.to_status (Json.Str (Json.status_name st)) = Some st.
Proof. by destruct st. Qed.

Lemma to_type_name (ty : RunType) :
  Json.to_type (Json.Str (Json.type_name ty)) = Some ty.
Proof. by destruct ty. Qed.

Lemma to_role_name (r : Role) :
  Json.to_role (Json.Str (Json.role_name r)) = Some r.
Proof. by destruct r. Qed.

(** Reading back a list that was written element by element. *)
Lemma to_list_of_list {A : Type} (enc : A → Json.t) (dec : Json.t → option A)
    (l : list A) :
  Forall (λ x, dec (enc x) = Some x) l →
  Json.to_list dec (Json.of_list enc l) = Some l.
Proof. intros H. simpl. by apply mapM_fmap_Forall_Some. Qed.

Lemma to_step_of_step (s : ProcessStep.t) :
  Json.to_step (Json.of_step s) = Some s.
Proof. destruct s as [i n d ins [c|]]; reflexivity. Qed.

Lemma to_metric_of_metric (m : SimulationMetric.t) :
  Json.exact (SimulationMetric.value m) = true →
  Json.to_metric (Json.of_metric m) = Some m.
Proof.
  destruct m as [n v u c]. simpl. intros E.
  unfold Json.of_metric. simpl. rewrite (of_number_exact v E).
  unfold Json.to_metric, Json.field. simpl.
  by rewrite to_category_name.
Qed.

Lemma to_log_of_log (l : SimulationLog.t) :
  Json.to_log (Json.of_log l) = Some l.
Proof.
  destruct l as [i n o d st]. unfold Json.of_log, Json.to_log, Json.field.
  simpl. by rewrite to_status_name.
Qed.

Local Arguments Json.of_list : simpl never.
Local Arguments Json.to_list : simpl never.
Local Arguments Json.of_number : simpl never.
Local Arguments Json.to_type : simpl never.
Local Arguments Json.to_role : simpl never.
Local Arguments Json.of_result : simpl never.
Local Arguments Json.to_result : simpl never.
Local Arguments Json.of_message : simpl never.
Local Arguments Json.to_message : simpl never.
Local Arguments Json.of_step : simpl never.
Local Arguments Json.to_step : simpl never.

Lemma to_result_of_result (r : SimulationResult.t) :
  exactResult r = true → Json.to_result (Json.of_result r) = Some r.
Proof.
  destruct r as [i ts ty ms ls sm a]. unfold exactResult. simpl.
  intros [T M]%andb_prop.
  unfold Json.of_result, Json.to_result, Json.field. simpl.
  rewrite (of_number_exact ts T), to_type_name. simpl.
  rewrite (to_list_of_list Json.of_metric Json.to_metric). 2:{
    apply Forall_forall. intros m Hm. apply to_metric_of_metric.
    rewrite forallb_forall in M. by apply M, list_elem_of_In. }
  rewrite (to_list_of_list Json.of_log Json.to_log). 2:{
    apply Forall_forall. intros l _. apply to_log_of_log. }
  rewrite (to_list_of_list Json.Str Json.to_string). 2:{
    by apply Forall_forall. }
  done.
Qed.

Lemma to_steps_of_steps (l : list ProcessStep.t) :
  Json.to_list Json.to_step (Json.of_list Json.of_step l) = Some l.
Proof.
  apply to_list_of_list, Forall_forall. intros s _. apply to_step_of_step.
Qed.

Lemma to_message_of_message (m : ChatMessage.t) :
  Json.to_message (Json.of_message m) = Some m.
Proof.
  destruct m as [r x [o|] [pp|]];
    unfold Json.of_message, Json.to_message, Json.field, Json.field_opt;
    simpl; rewrite to_role_name; simpl;
    rewrite ?to_steps_of_steps; done.
Qed.

Lemma read_result_nullable (k : string) (o : option SimulationResult.t)
    (p : list (string * Json.t)) :
  Json.prop k p = Some (Json.nullable Json.of_result o) →
  from_option exactResult true o = true →
  read_result k p = Some o.
Proof.
  unfold read_result. intros -> E. destruct o as [r|]; simpl; [| done].
  simpl in E. rewrite (to_result_of_result r E).
  unfold Json.of_result. done.
Qed.

(** What the load effect reads from a record that the save effect wrote,
    whatever the snapshot. *)
Lemma load_saveState_name (s : State) (ls : gmap string Item) :
  ∀ x, load (saveState s ls) = Restored x →
       snap_processName x = JS.str_or (Some (processName s)) "My Process".
Proof.
  intros x. unfold load, saveState. rewrite lookup_insert_eq. simpl.
  unfold read_processName. simpl. unfold JS.str_or.
  destruct (JS.truthy_str (processName s)); simpl;
    repeat case_match; intros [= <-]; done.
Qed.

(** The load effect reads back what the save effect wrote, for a snapshot
    that the record can hold. *)
Lemma load_saveState (s : State) (ls : gmap string Item) :
  storable (snapshot s) = true →
  load (saveState s ls) = Restored (snapshot s).
Proof.
  unfold storable. simpl. intros [[N B]%andb_prop O]%andb_prop.
  unfold load, saveState. rewrite lookup_insert_eq. simpl.
  unfold read_processName, read_list. simpl. rewrite N. simpl.
  rewrite to_steps_of_steps.
  rewrite (read_result_nullable "baselineResult" (baselineResult s)); [| done | done].
  rewrite (read_result_nullable "optimizedResult" (optimizedResult s)); [| done | done].
  rewrite (to_list_of_list Json.of_message Json.to_message). 2:{
    apply Forall_forall. intros m _. apply to_message_of_message. }
  done.
Qed.

Lemma snapshot_restore (x : Snapshot) (s : State) : snapshot (restore x s) = x.
Proof. by destruct x. Qed.

Lemma restore_frame (x : Snapshot) (s : State) :
  apiKey (restore x s) = apiKey s ∧
  showApiKeyModal (restore x s) = showApiKeyModal s ∧
  activeTab (restore x s) = activeTab s ∧
  isSimulating (restore x s) = isSimulating s.
Proof. done. Qed.

Lemma loadState_saveState (s s0 : State) (ls : gmap string Item) :
  storable (snapshot s) = true →
  loadState (saveState s ls) s0 = Some (restore (snapshot s) s0).
Proof. intros H. unfold loadState. by rewrite (load_saveState s ls H). Qed.

(** C4, as the code has it.  A snapshot with a non-empty process name
    and with numbers that a JSON text carries unchanged (finite, not the
    negative zero) is read back equal, field for field, from the record
    that the save effect wrote. *)
Theorem load_after_save (s : State) (ls : gmap string Item) :
  storable (snapshot s) = true →
  load (saveState s ls) = Restored (snapshot s) ∧
  ∀ s0, ∃ s', loadState (saveState s ls) s0 = Some s' ∧
              processName s' = processName s ∧
              steps s' = steps s ∧
              baselineResult s' = baselineResult s ∧
              optimizedResult s' = optimizedResult s ∧
              chatHistory s' = chatHistory s.
Proof.
  intros H. split; [by apply load_saveState |].
  intros s0. exists (restore (snapshot s) s0).
  split; [by apply loadState_saveState | done].
Qed.

(** C4 fails as stated: a snapshot whose process name is empty is read
    back with the name "My Process". *)
Lemma load_after_save_empty_name :
  processName Sample.unnamed = "" ∧
  ∃ x, load (saveState Sample.unnamed ∅) = Restored x ∧
       snap_processName x = "My Process" ∧
       x ≠ snapshot Sample.unnamed.
Proof.
  split; [reflexivity |]. unfold load, saveState.
  rewrite lookup_insert_eq. eexists. split; [vm_compute; reflexivity |].
  split; [reflexivity | discriminate].
Qed.

(** The numbers that a JSON text does not carry: an infinite value is
    written [null], and the negative zero is read back as zero. *)
Example load_after_save_infinite_value :
  load (saveState Sample.overflowing ∅) = Untyped.
Proof. unfold load, saveState. rewrite lookup_insert_eq. reflexivity. Qed.

Example load_after_save_negative_zero :
  ∃ x r, load (saveState Sample.negativeZero ∅) = Restored x ∧
         snap_baselineResult x = Some r ∧
         SimulationMetric.value <$> SimulationResult.metrics r = [0] ∧
         x ≠ snapshot Sample.negativeZero.
Proof.
  unfold load, saveState. rewrite lookup_insert_eq. eexists _, _.
  split; [reflexivity |]. split; [reflexivity |]. split; [reflexivity |].
  intros H. apply (f_equal (λ x, from_option
    (λ r, (λ m, 1 / SimulationMetric.value m <? 0) <$> SimulationResult.metrics r)
    [] (snap_baselineResult x))) in H. discriminate H.
Qed.

Lemma load_after_save_witness :
  load (saveState Sample.session ∅) = Restored (snapshot Sample.session).
Proof.
  destruct (load_after_save Sample.session ∅) as [L _].
  - reflexivity.
  - exact L.
Defined.

(** *** Reset *)

Lemma handleReset_snapshot (s : State) (ls : gmap string Item) :
  snapshot (handleReset true s ls).1 = resetSnapshot.
Proof. done. Qed.

(** C3, as the code has it.  A confirmed reset leaves no step, no result
    and no chat message, and names the process "New Process"; the handler
    deletes the durable record; loading afterwards, from the storage the
    handler left or from the one the following render leaves, gives the
    empty step list, null results and the empty transcript. *)
Theorem handleReset_confirmed (s : State) (ls : gmap string Item) :
  let after := handleReset true s ls in
  (processName after.1 = "New Process" ∧
   steps after.1 = [] ∧
   baselineResult after.1 = None ∧
   optimizedResult after.1 = None ∧
   chatHistory after.1 = []) ∧
  after.2 = delete STORAGE_KEY ls ∧
  (∃ s', loadState after.2 initial = Some s' ∧
         steps s' = [] ∧ baselineResult s' = None ∧
         optimizedResult s' = None ∧ chatHistory s' = []) ∧
  (∃ s', loadState (rendered after).2 initial = Some s' ∧
         steps s' = [] ∧ baselineResult s' = None ∧
         optimizedResult s' = None ∧ chatHistory s' = []).
Proof.
  intros after. split; [done |]. split; [done |]. split.
  - exists initial. unfold loadState, load. subst after. simpl.
    by rewrite lookup_delete_eq.
  - exists (restore (snapshot after.1) initial).
    split; [by apply loadState_saveState | done].
Qed.

(** C3 fails as stated: after a confirmed reset and the render that
    follows it, the process name is "New Process", the durable record is
    there again, and loading it does not give the name "My Process". *)
Lemma handleReset_not_default_nor_erased :
  let after :=
    rendered (handleReset true Sample.session (saveState Sample.session ∅)) in
  snapshot after.1 ≠ defaultSnapshot ∧
  after.2 !! STORAGE_KEY ≠ None ∧
  load after.2 = Restored resetSnapshot ∧
  load after.2 ≠ Restored defaultSnapshot.
Proof.
  intros after.
  assert (load after.2 = Restored resetSnapshot) as L.
  { subst after. unfold rendered. simpl. by apply load_saveState. }
  split; [discriminate |]. split.
  - subst after. unfold rendered, saveState. simpl.
    by rewrite lookup_insert_eq.
  - split; [exact L |]. rewrite L. discriminate.
Qed.

End Persistence.

(** ** The handlers of [App] *)

Section Handlers.
Local Open Scope float_scope.
Import App.

Implicit Types (env : GeminiService.SimulationEnv) (s : State).

(** The settling of [handleRunSimulation] never touches the optimized
    slot. *)
Lemma handleRunSimulation_settle_optimized p s :
  optimizedResult (handleRunSimulation_settle p s).1 = optimizedResult s.
Proof. by destruct p. Qed.

(** What [simulateProcess] fulfils with has the requested type. *)
Lemma simulate_type env (c : Simulate) (r : SimulationResult.t) :
  GeminiService.settled (simulate env c) = GeminiService.Fulfilled r →
  SimulationResult.type r = on_type c.
Proof.
  unfold simulate, GeminiService.simulateProcess.
  destruct (negb (JS.truthy_str (on_apiKey c))); [discriminate |]. simpl.
  destruct (GeminiService.sim_generateContent env _); simpl;
    try discriminate. by intros [= <-].
Qed.

(** Without a credential neither handler calls [simulateProcess]: it opens
    the key dialog and leaves the persisted fields alone. *)
Lemma handlers_without_credential env (newSteps : list ProcessStep.t) s :
  apiKey s = "" →
  steps s ≠ [] →
  handleRunSimulation env s = mkRun (setShowApiKeyModal true s) [] [] [] ∧
  handleApplyOptimization env newSteps s
    = mkRun (setShowApiKeyModal true s) [] [] [].
Proof.
  intros K E. unfold handleRunSimulation, handleRunSimulation_start,
    handleApplyOptimization, handleApplyOptimization_start.
  rewrite K. by destruct (steps s).
Qed.

Lemma handleReset_declined s (ls : gmap string Item) :
  handleReset false s ls = (s, ls).
Proof. done. Qed.

(** C10.  With no step [handleRunSimulation] returns at once: the state
    is the same and nothing was called or sent.  With a step and a
    credential it calls [simulateProcess] once, with type [BASELINE] and
    no reference names; the optimized slot is left as it was, and a
    result that fulfils the call is stored in the baseline slot. *)
Theorem handleRunSimulation_baseline_only env s :
  (steps s = [] → handleRunSimulation env s = mkRun s [] [] []) ∧
  (steps s ≠ [] → JS.truthy_str (apiKey s) = true →
   let run := handleRunSimulation env s in
   let call := mkSimulate (apiKey s) (processName s) (steps s) BASELINE None in
   calls run = [call] ∧
   requests run = GeminiService.issued (simulate env call) ∧
   length (requests run) = 1%nat ∧
   optimizedResult (state run) = optimizedResult s ∧
   (∀ r, GeminiService.settled (simulate env call) = GeminiService.Fulfilled r →
         baselineResult (state run) = Some r ∧
         SimulationResult.type r = BASELINE) ∧
   (∀ e, GeminiService.settled (simulate env call) = GeminiService.RejectedWith e →
         baselineResult (state run) = baselineResult s)).
Proof.
  split.
  - intros E. unfold handleRunSimulation, handleRunSimulation_start.
    by rewrite E.
  - intros E K run call. subst run.
    unfold handleRunSimulation, handleRunSimulation_start.
    destruct (steps s) as [|x rest] eqn:Es; [done |]. rewrite K. simpl.
    fold call.
    split; [done |]. split; [done |]. split.
    { unfold simulate. simpl.
      by rewrite (simulateProcess_with_credential _ _ _ _ _ _ K). }
    split; [by rewrite handleRunSimulation_settle_optimized |]. split.
    + intros r Hr. rewrite Hr. split; [done |].
      by rewrite (simulate_type env call r Hr).
    + intros e He. by rewrite He.
Qed.

(** C8.  [handleApplyOptimization] replaces the steps before it calls
    [simulateProcess] with type [OPTIMIZED]; when that call fails the
    steps stay replaced, and both result slots are as they were. *)
Theorem handleApplyOptimization_not_atomic env (newSteps : list ProcessStep.t) s :
  JS.truthy_str (apiKey s) = true →
  let start := handleApplyOptimization_start newSteps s in
  let run := handleApplyOptimization env newSteps s in
  steps start.1 = newSteps ∧
  baselineResult start.1 = baselineResult s ∧
  optimizedResult start.1 = optimizedResult s ∧
  ∃ call, start.2 = Some call ∧
          on_type call = OPTIMIZED ∧
          on_steps call = newSteps ∧
          calls run = [call] ∧
          (∀ e, GeminiService.settled (simulate env call)
                  = GeminiService.RejectedWith e →
                steps (state run) = newSteps ∧
                baselineResult (state run) = baselineResult s ∧
                optimizedResult (state run) = optimizedResult s ∧
                alerts run = ["Optimization simulation failed."]).
Proof.
  intros K start run. subst start run.
  unfold handleApplyOptimization, handleApplyOptimization_start.
  rewrite K. simpl. split; [done |]. split; [done |]. split; [done |].
  eexists. split; [done |]. split; [done |]. split; [done |].
  split; [done |]. intros e He. by rewrite He.
Qed.

(** C6, as the code has it.  The simulation context that [handleSend]
    gives to [chatWithProcessAI], and that the request carries, is the
    optimized result whenever there is one, and the baseline result
    otherwise; the timestamps play no part. *)
Theorem chat_context_prefers_optimized
    (sendMessage : GeminiService.ChatRequest → GeminiService.ChatReply)
    s (l : ChatPanel.Local) :
  JS.blank (ChatPanel.input l) = false →
  ChatPanel.isLoading l = false →
  JS.truthy_str (apiKey s) = true →
  ChatPanel.simulationResult (chatPanelProps s)
    = match optimizedResult s with
      | Some o => Some o
      | None => baselineResult s
      end ∧
  ∃ request,
    ChatPanel.requests (ChatPanel.handleSend sendMessage (chatPanelProps s) l)
      = [request] ∧
    GeminiService.ctx_latest (GeminiService.chat_systemInstruction request)
      = match optimizedResult s, baselineResult s with
        | Some o, _ => GeminiService.LatestMetrics (SimulationResult.metrics o)
        | None, Some b => GeminiService.LatestMetrics (SimulationResult.metrics b)
        | None, None => GeminiService.NoSimulationRunYet
        end.
Proof.
  intros B L K. split; [done |].
  unfold ChatPanel.handleSend. rewrite B, L. simpl.
  unfold GeminiService.chatWithProcessAI. rewrite K. simpl.
  eexists. split; [done |]. simpl.
  by destruct (optimizedResult s), (baselineResult s).
Qed.

(** C6 fails as stated.  Applying a proposal at time [100] and then
    running the simulation at time [200] leaves a baseline result that is
    more recent than the optimized one; the chat panel is given the
    optimized one. *)
Lemma chat_context_not_most_recent :
  let s1 := state (handleApplyOptimization Sample.at100
                     [Sample.cut; Sample.weld] Sample.fresh) in
  let s2 := state (handleRunSimulation Sample.at200 s1) in
  ∃ b o, baselineResult s2 = Some b ∧ optimizedResult s2 = Some o ∧
         SimulationResult.timestamp b = 200 ∧
         SimulationResult.timestamp o = 100 ∧
         (SimulationResult.timestamp o <? SimulationResult.timestamp b) = true ∧
         ChatPanel.simulationResult (chatPanelProps s2) = Some o ∧
         ChatPanel.simulationResult (chatPanelProps s2) ≠ Some b.
Proof.
  intros s1 s2. eexists _, _.
  split; [reflexivity |]. split; [reflexivity |].
  split; [reflexivity |]. split; [reflexivity |].
  split; [reflexivity |]. split; [reflexivity |]. discriminate.
Qed.

Lemma handleRunSimulation_baseline_only_witness :
  handleRunSimulation Sample.at200 App.initial = mkRun App.initial [] [] [] ∧
  optimizedResult (state (handleRunSimulation Sample.at200 Sample.session))
    = Some Sample.optimized.
Proof.
  split.
  - apply (handleRunSimulation_baseline_only Sample.at200 App.initial).
    reflexivity.
  - destruct (handleRunSimulation_baseline_only Sample.at200 Sample.session)
      as [_ H].
    destruct H as (_ & _ & _ & Ho & _); [discriminate | reflexivity |].
    exact Ho.
Defined.

Lemma handleApplyOptimization_not_atomic_witness :
  let run := handleApplyOptimization Sample.offline [Sample.cut] Sample.session in
  steps (state run) = [Sample.cut] ∧
  baselineResult (state run) = Some Sample.baseline ∧
  optimizedResult (state run) = Some Sample.optimized.
Proof.
  destruct (handleApplyOptimization_not_atomic Sample.offline [Sample.cut]
              Sample.session) as (_ & _ & _ & call & Hcall & _ & _ & _ & H).
  - reflexivity.
  - injection Hcall as <-.
    destruct (H GeminiService.TransportError) as (Hs & Hb & Ho & _).
    + reflexivity.
    + split; [exact Hs |]. split; [exact Hb | exact Ho].
Defined.

Lemma chat_context_prefers_optimized_witness :
  ChatPanel.simulationResult (chatPanelProps Sample.session)
    = Some Sample.optimized.
Proof.
  destruct (chat_context_prefers_optimized
              (λ _, GeminiService.ChatRejects) Sample.session
              (ChatPanel.mkLocal "Why?" false)) as [H _].
  - reflexivity.
  - reflexivity.
  - reflexivity.
  - exact H.
Defined.

End Handlers.


(** ** The key *)

Section Key.
Import App.


Lemma trimEnd_blank (s : string) : JS.blank s = true → JS.trimEnd s = "".
Proof.
  unfold JS.blank. induction s as [|c rest IH]; [done |]. simpl.
  intros [Hc Hrest]%andb_prop. by rewrite Hc, (IH Hrest).
Qed.













(** X2.  The key and the state have records of their own.  A key that was
    set is read back by the effect that loads the key; after the key was
    cleared nothing is read back; saving the state or resetting the
    project leaves the saved key as it is, and setting or clearing the key
    leaves the saved state as it is. *)
Theorem key_record_independent (key : string) (s s0 : State)
    (ls : gmap string Item) :
  key ≠ "" →
  loadApiKey (handleSetApiKey key s ls).2 s0 = Some (setApiKey key s0) ∧
  loadApiKey (clearApiKey true s ls).2 s0 = Some s0 ∧
  apiKey (clearApiKey true s ls).1 = "" ∧
  loadApiKey (saveState s ls) s0 = loadApiKey ls s0 ∧
  loadApiKey (handleReset true s ls).2 s0 = loadApiKey ls s0 ∧
  apiKey (handleReset true s ls).1 = apiKey s ∧
  load (handleSetApiKey key s ls).2 = load ls ∧
  load (clearApiKey true s ls).2 = load ls.
Proof.
  intros K%truthy_str_nonempty.
  unfold loadApiKey, load, handleSetApiKey, clearApiKey, handleReset, saveState.
  simpl. repeat split.
  - by rewrite lookup_insert_eq, K.
  - by rewrite lookup_delete_eq.
  - by rewrite lookup_insert_ne.
  - by rewrite lookup_delete_ne.
  - by rewrite lookup_insert_ne.
  - by rewrite lookup_delete_ne.
Qed.

Lemma key_record_independent_witness :
  loadApiKey (handleSetApiKey "AIza-key" Sample.session ∅).2 initial
  = Some (setApiKey "AIza-key" initial).
Proof.
  destruct (key_record_independent "AIza-key" Sample.session initial ∅)
    as [H _].
  - discriminate.
  - exact H.
Defined.

End Key.

(** ** Editing the steps *)

Section Editing.
Import ProcessBuilder.

Implicit Types (steps : list ProcessStep.t) (i : string).

Lemma handleDelete_absent i steps :
  i ∉ (ProcessStep.id <$> steps) → handleDelete i steps = steps.
Proof.
  unfold handleDelete. induction steps as [|s steps IH]; [done |].
  rewrite fmap_cons, not_elem_of_cons. intros [Hs Hrest]. simpl.
  destruct (String.eqb_spec (ProcessStep.id s) i) as [E|_]; [by subst |].
  simpl. by rewrite IH.
Qed.

Lemma handleDelete_app i steps1 steps2 :
  handleDelete i (steps1 ++ steps2)
  = handleDelete i steps1 ++ handleDelete i steps2.
Proof. unfold handleDelete. apply List.filter_app. Qed.

(** X3.  Deleting goes by identifier.  No step with the identifier is
    left and the other steps stay, in order.  When the identifiers are
    pairwise distinct, deleting a step of the list takes out that step
    alone; deleting an identifier that no step has changes nothing. *)
Theorem handleDelete_by_id i steps :
  (i ∉ (ProcessStep.id <$> handleDelete i steps)) ∧
  (∀ s, s ∈ handleDelete i steps ↔ s ∈ steps ∧ ProcessStep.id s ≠ i) ∧
  (handleDelete i steps `sublist_of` steps) ∧
  (i ∉ (ProcessStep.id <$> steps) → handleDelete i steps = steps) ∧
  (NoDup (ProcessStep.id <$> steps) →
   ∀ s, s ∈ steps → ProcessStep.id s = i →
        ∃ before after, steps = before ++ s :: after ∧
                        handleDelete i steps = before ++ after).
Proof.
  split; [apply handleDelete_gone |]. split; [| split; [| split]].
  - intros s. unfold handleDelete.
    rewrite !list_elem_of_In, filter_In, negb_true_iff, String.eqb_neq.
    done.
  - unfold handleDelete. induction steps as [|s steps IH]; [done |]. simpl.
    destruct (negb _); [by apply sublist_skip | by apply sublist_cons].
  - apply handleDelete_absent.
  - intros Hnodup s (before & after & ->)%list_elem_of_split Hi.
    exists before, after. split; [done |].
    rewrite fmap_app, fmap_cons in Hnodup.
    apply NoDup_app in Hnodup as (_ & Hdisjoint & [Hafter _]%NoDup_cons).
    rewrite handleDelete_app.
    rewrite (handleDelete_absent i before).
    2:{ intros Hin. apply (Hdisjoint _ Hin). rewrite Hi. apply list_elem_of_here. }
    f_equal. unfold handleDelete at 1. simpl.
    rewrite Hi, String.eqb_refl. simpl.
    apply handleDelete_absent. by rewrite <- Hi.
Qed.

Lemma handleDelete_by_id_witness :
  ∃ before after,
    [Sample.cut; Sample.weld] = before ++ Sample.cut :: after ∧
    handleDelete "1" [Sample.cut; Sample.weld] = before ++ after.
Proof.
  destruct (handleDelete_by_id "1" [Sample.cut; Sample.weld])
    as (_ & _ & _ & _ & H).
  apply (H ltac:(by_decide) Sample.cut).
  - apply list_elem_of_here.
  - reflexivity.
Defined.

Lemma withField_id f v (s : ProcessStep.t) :
  ProcessStep.id (withField f v s) = ProcessStep.id s.
Proof. by destruct f. Qed.

Lemma withField_twice f v1 v2 (s : ProcessStep.t) :
  withField f v2 (withField f v1 s) = withField f v2 s.
Proof. by destruct f. Qed.

Lemma fieldOf_withField f v (s : ProcessStep.t) :
  fieldOf f (withField f v s) = Some v.
Proof. by destruct f. Qed.

(** X4.  An update goes by identifier and changes one field.  The
    identifiers, their order and the number of steps stay; every step with
    the identifier has the new value, every other step is as it was; a
    second update of the same field replaces the first; updates of steps
    with different identifiers can be done in either order. *)
Theorem handleUpdateStep_by_id i f v steps :
  ProcessStep.id <$> handleUpdateStep i f v steps = ProcessStep.id <$> steps ∧
  (∀ k s, steps !! k = Some s →
          handleUpdateStep i f v steps !! k
          = Some (if String.eqb (ProcessStep.id s) i then withField f v s else s)) ∧
  (∀ s, s ∈ handleUpdateStep i f v steps → ProcessStep.id s = i →
        fieldOf f s = Some v) ∧
  (∀ v0, handleUpdateStep i f v (handleUpdateStep i f v0 steps)
         = handleUpdateStep i f v steps) ∧
  (∀ j g w, i ≠ j →
     handleUpdateStep i f v (handleUpdateStep j g w steps)
     = handleUpdateStep j g w (handleUpdateStep i f v steps)).
Proof.
  unfold handleUpdateStep. split; [| split; [| split; [| split]]].
  - rewrite <- list_fmap_compose. apply list_fmap_ext. intros k s _. simpl.
    destruct (String.eqb _ _); [apply withField_id | done].
  - intros k s Hk. by rewrite list_lookup_fmap, Hk.
  - intros s' (s & -> & _)%list_elem_of_fmap.
    destruct (String.eqb_spec (ProcessStep.id s) i) as [_|Hne].
    + intros _. apply fieldOf_withField.
    + intros Hi. by destruct Hne.
  - intros v0. rewrite <- list_fmap_compose. apply list_fmap_ext.
    intros k s _. simpl.
    destruct (String.eqb (ProcessStep.id s) i) eqn:E.
    + by rewrite withField_id, E, withField_twice.
    + by rewrite E.
  - intros j g w Hij. rewrite <- !list_fmap_compose. apply list_fmap_ext.
    intros k s _. simpl.
    destruct (String.eqb_spec (ProcessStep.id s) i) as [Ei|Ei],
             (String.eqb_spec (ProcessStep.id s) j) as [Ej|Ej];
      rewrite ?withField_id;
      try (destruct (String.eqb_spec (ProcessStep.id s) i); [| done]);
      try (destruct (String.eqb_spec (ProcessStep.id s) j); [| done]);
      try done; congruence.
Qed.

Lemma handleUpdateStep_by_id_witness :
  handleUpdateStep "2" conditions "180C" [Sample.cut; Sample.weld] !! 1%nat
  = Some (ProcessStep.mk "2" "Weld" "Weld the parts" "Parts" (Some "180C")).
Proof.
  destruct (handleUpdateStep_by_id "2" conditions "180C"
              [Sample.cut; Sample.weld]) as (_ & H & _).
  rewrite (H 1%nat Sample.weld); reflexivity.
Defined.





End Editing.

(** ** More on the oracle adapters *)

Section AdapterOutcomes.
Import GeminiService.



(** X8.  An empty list of reference names counts as none: the request is
    the one of a run without reference names, and it asks for the standard
    indicators. *)
Theorem simulateProcess_empty_reference env apiKey processName steps type :
  issued (simulateProcess env apiKey processName steps type (Some []))
  = issued (simulateProcess env apiKey processName steps type None) ∧
  settled (simulateProcess env apiKey processName steps type (Some []))
  = settled (simulateProcess env apiKey processName steps type None) ∧
  ∀ request,
    request ∈ issued (simulateProcess env apiKey processName steps type (Some [])) →
    sim_metricInstruction request = StandardKPIs.
Proof.
  unfold simulateProcess. destruct (negb (JS.truthy_str apiKey)); simpl.
  - split; [done |]. split; [done |]. by intros ? ?%elem_of_nil.
  - split; [done |]. split; [done |].
    by intros ? ->%list_elem_of_singleton.
Qed.

Lemma simulateProcess_empty_reference_witness :
  sim_metricInstruction
    (mkSimulationRequest MODEL "My Process" [Sample.cut] (metricInstruction (Some [])))
  = StandardKPIs.
Proof.
  destruct (simulateProcess_empty_reference Sample.at100 "key" "My Process"
              [Sample.cut] OPTIMIZED) as (_ & _ & H).
  apply H. apply list_elem_of_here.
Defined.






(** X10.  Without a key the import adapter and the chat adapter fail as
    the simulation adapter does: the key is reported missing and no
    request is sent. *)
Theorem adapters_without_credential
    (env : ImportEnv) (sendMessage : ChatRequest → ChatReply)
    text history currentMessage name steps context :
  let import := parseProcessDescription env "" text in
  let chat := chatWithProcessAI sendMessage "" history currentMessage name
                steps context in
  issued import = [] ∧ settled import = RejectedWith ApiKeyMissing ∧
  issued chat = [] ∧ settled chat = RejectedWith ApiKeyMissing.
Proof. done. Qed.

Lemma append_nonempty (a b : string) : a ≠ "" → (a ++ b)%string ≠ "".
Proof. by destruct a. Qed.



End AdapterOutcomes.

(** ** The chat panel *)

Section Chat.
Import App.

Implicit Types (sendMessage : GeminiService.ChatRequest → GeminiService.ChatReply).

Lemma string_app_assoc (a b c : string) :
  ((a ++ b) ++ c = a ++ (b ++ c))%string.
Proof.
  induction a as [|ch a IH]; [done |].
  change (String ch ((a ++ b) ++ c) = String ch (a ++ b ++ c))%string.
  by rewrite IH.
Qed.

Lemma concat_snoc (sep : string) (l : list string) (x : string) :
  String.concat sep (l ++ [x]) =
    match l with
    | [] => x
    | _ :: _ => (String.concat sep l ++ sep ++ x)%string
    end.
Proof.
  induction l as [|a l IH]; [done |].
  destruct l as [|b l]; [done |].
  change (String.concat sep ((a :: b :: l) ++ [x]))
    with (a ++ sep ++ String.concat sep ((b :: l) ++ [x]))%string.
  rewrite IH.
  change (String.concat sep (a :: b :: l))
    with (a ++ sep ++ String.concat sep (b :: l))%string.
  by rewrite !string_app_assoc.
Qed.



(** X13.  Without a key the chat panel sends nothing and answers with its
    own message about the connection; the key dialog is not opened. *)
Theorem sendChat_without_credential sendMessage (l : ChatPanel.Local) (s : State) :
  apiKey s = "" →
  JS.blank (ChatPanel.input l) = false → ChatPanel.isLoading l = false →
  ChatPanel.requests (ChatPanel.handleSend sendMessage (chatPanelProps s) l) = [] ∧
  chatHistory (sendChat sendMessage l s).1
  = chatHistory s ++ [ChatMessage.mk user (ChatPanel.input l) None None;
                      ChatMessage.mk model ChatPanel.errorText None None] ∧
  showApiKeyModal (sendChat sendMessage l s).1 = showApiKeyModal s.
Proof.
  intros K B L. unfold sendChat, ChatPanel.handleSend. rewrite B, L. simpl.
  unfold GeminiService.chatWithProcessAI. rewrite K. simpl.
  by rewrite <- app_assoc.
Qed.

Lemma sendChat_without_credential_witness :
  ChatPanel.requests
    (ChatPanel.handleSend (λ _, GeminiService.ChatRejects)
       (chatPanelProps initial) (ChatPanel.mkLocal "Why?" false)) = [].
Proof.
  destruct (sendChat_without_credential (λ _, GeminiService.ChatRejects)
              (ChatPanel.mkLocal "Why?" false) initial) as [H _].
  - reflexivity.
  - reflexivity.
  - reflexivity.
  - exact H.
Defined.

(** X14.  The request of a chat message carries the new message twice:
    the transcript handed to the adapter already ends with it, and the
    adapter adds it once more after the transcript. *)
Theorem handleSend_repeats_message sendMessage (l : ChatPanel.Local) (s : State) :
  JS.truthy_str (apiKey s) = true →
  JS.blank (ChatPanel.input l) = false → ChatPanel.isLoading l = false →
  ∃ request before,
    ChatPanel.requests (ChatPanel.handleSend sendMessage (chatPanelProps s) l)
      = [request] ∧
    GeminiService.chat_message request
      = (before ++ "User: " ++ ChatPanel.input l ++ GeminiService.newline
           ++ "User: " ++ ChatPanel.input l)%string ∧
    before = match chatHistory s with
             | [] => ""
             | _ :: _ =>
                 (String.concat GeminiService.newline
                    (GeminiService.historyLine <$> chatHistory s)
                    ++ GeminiService.newline)%string
             end.
Proof.
  intros K B L. unfold ChatPanel.handleSend. rewrite B, L. simpl.
  unfold GeminiService.chatWithProcessAI. rewrite K. simpl.
  eexists _, _. split; [done |]. split; [| done].
  change (map GeminiService.historyLine
            (chatHistory s ++ [ChatMessage.mk user (ChatPanel.input l) None None]))
    with (GeminiService.historyLine <$>
            (chatHistory s ++ [ChatMessage.mk user (ChatPanel.input l) None None])).
  rewrite fmap_app.
  change (GeminiService.historyLine <$>
            [ChatMessage.mk user (ChatPanel.input l) None None])
    with ["User: " ++ ChatPanel.input l]%string.
  rewrite concat_snoc.
  destruct (chatHistory s) as [|m h]; [done |].
  rewrite fmap_cons. by rewrite !string_app_assoc.
Qed.

Lemma handleSend_repeats_message_witness :
  ∃ request,
    ChatPanel.requests
      (ChatPanel.handleSend (λ _, GeminiService.ChatRejects)
         (chatPanelProps Sample.fresh) (ChatPanel.mkLocal "Why?" false))
      = [request] ∧
    GeminiService.chat_message request
      = ("User: Why?" ++ GeminiService.newline ++ "User: Why?")%string.
Proof.
  destruct (handleSend_repeats_message (λ _, GeminiService.ChatRejects)
              (ChatPanel.mkLocal "Why?" false) Sample.fresh)
    as (request & before & Hreq & Hmsg & Hbefore).
  - reflexivity.
  - reflexivity.
  - reflexivity.
  - exists request. split; [exact Hreq |]. rewrite Hmsg, Hbefore. reflexivity.
Defined.

End Chat.

(** ** More on the handlers of [App] *)

Section Workspace.
Local Open Scope float_scope.
Import App.

Implicit Types (env : GeminiService.SimulationEnv) (s : State).

(** X15.  [handleApplyOptimization] asks for the metric names of the
    baseline result, in their order, when there is a baseline result with
    metrics, and for the standard indicators otherwise; the request is for
    the proposed steps under the current process name. *)
Theorem handleApplyOptimization_reference env (newSteps : list ProcessStep.t) s :
  JS.truthy_str (apiKey s) = true →
  ∃ request,
    requests (handleApplyOptimization env newSteps s) = [request] ∧
    GeminiService.sim_steps request = newSteps ∧
    GeminiService.sim_processName request = processName s ∧
    GeminiService.sim_metricInstruction request =
      match baselineResult s with
      | Some b =>
          match metricNames b with
          | [] => GeminiService.StandardKPIs
          | n :: ns => GeminiService.MustInclude (n :: ns)
          end
      | None => GeminiService.StandardKPIs
      end.
Proof.
  intros K. unfold handleApplyOptimization, handleApplyOptimization_start.
  rewrite K. simpl. unfold simulate. simpl.
  rewrite (simulateProcess_with_credential _ _ _ _ _ _ K). simpl.
  eexists. split; [done |]. simpl. split; [done |]. split; [done |].
  destruct (baselineResult s) as [b|]; [| done]. simpl.
  unfold metricNames. by destruct (SimulationResult.metrics b).
Qed.

Lemma handleApplyOptimization_reference_witness :
  ∃ request,
    requests (handleApplyOptimization Sample.at100 [Sample.cut] Sample.session)
      = [request] ∧
    GeminiService.sim_metricInstruction request
      = GeminiService.MustInclude ["Yield"; "Waste"].
Proof.
  destruct (handleApplyOptimization_reference Sample.at100 [Sample.cut]
              Sample.session) as (request & Hreq & _ & _ & Hinstr).
  - reflexivity.
  - exists request. split; [exact Hreq | exact Hinstr].
Defined.

(** X16.  When the simulation of a proposal succeeds, the result is stored
    in the optimized slot with type [OPTIMIZED], the baseline slot is
    untouched, and the workspace shows the comparison if there was a
    baseline result and the result alone otherwise; nothing is alerted. *)
Theorem handleApplyOptimization_success env (newSteps : list ProcessStep.t) s
    (r : SimulationResult.t) :
  JS.truthy_str (apiKey s) = true →
  GeminiService.settled
    (GeminiService.simulateProcess env (apiKey s) (processName s) newSteps
       OPTIMIZED
       ((λ b, SimulationMetric.name <$> SimulationResult.metrics b)
          <$> baselineResult s))
    = GeminiService.Fulfilled r →
  let run := handleApplyOptimization env newSteps s in
  optimizedResult (state run) = Some r ∧
  SimulationResult.type r = OPTIMIZED ∧
  baselineResult (state run) = baselineResult s ∧
  steps (state run) = newSteps ∧
  isSimulating (state run) = false ∧
  alerts run = [] ∧
  pane (state run) =
    match baselineResult s with
    | Some b => Comparison b r
    | None => Viewer (SimulationViewer.Results r)
    end.
Proof.
  intros K Hr run. subst run.
  unfold handleApplyOptimization, handleApplyOptimization_start.
  rewrite K. simpl. unfold simulate. simpl.
  change (λ r0 : SimulationResult.t,
            map SimulationMetric.name (SimulationResult.metrics r0))
    with (λ b : SimulationResult.t,
            SimulationMetric.name <$> SimulationResult.metrics b).
  rewrite Hr. simpl.
  assert (SimulationResult.type r = OPTIMIZED) as Htype.
  { revert Hr. unfold GeminiService.simulateProcess. rewrite K. simpl.
    destruct (GeminiService.sim_generateContent env _); simpl; try discriminate.
    by intros [= <-]. }
  unfold pane. destruct (baselineResult s) as [b|] eqn:B; simpl;
    rewrite ?B; done.
Qed.

Lemma handleApplyOptimization_success_witness :
  ∃ r, optimizedResult
         (state (handleApplyOptimization Sample.at100 [Sample.cut] Sample.session))
       = Some r ∧
       pane (state (handleApplyOptimization Sample.at100 [Sample.cut] Sample.session))
       = Comparison Sample.baseline r.
Proof.
  eexists.
  destruct (handleApplyOptimization_success Sample.at100 [Sample.cut]
              Sample.session
              (SimulationResult.mk "r-100" 100 OPTIMIZED [Sample.yield90]
                 [Sample.cutLog] "Optimized" []))
    as (Ho & _ & _ & _ & _ & _ & Hp).
  - reflexivity.
  - reflexivity.
  - split; [exact Ho | exact Hp].
Defined.

(** X17.  The busy flag is set while a simulation is awaited and is
    cleared when the call settles, whether it succeeded or failed; a
    handler that returns before calling leaves the flag as it was. *)
Theorem isSimulating_cleared env (newSteps : list ProcessStep.t) s :
  busyAroundCall s (handleRunSimulation_start s) (handleRunSimulation env s) ∧
  busyAroundCall s (handleApplyOptimization_start newSteps s)
    (handleApplyOptimization env newSteps s).
Proof.
  unfold busyAroundCall, handleRunSimulation, handleApplyOptimization,
    handleRunSimulation_start, handleApplyOptimization_start. split.
  - destruct (steps s); [done |].
    destruct (negb (JS.truthy_str (apiKey s))); [done |]. simpl.
    by destruct (GeminiService.settled _).
  - destruct (negb (JS.truthy_str (apiKey s))); [done |]. simpl.
    destruct (GeminiService.settled _); simpl; [| done].
    by destruct (JS.is_object (baselineResult s)).
Qed.

(** X18.  A new baseline run is not what the results view shows while an
    optimized result exists: the handler switches to the results view,
    which goes on showing the optimized result, whether the run succeeded
    (and replaced the baseline result) or failed. *)
Theorem handleRunSimulation_shows_optimized env s (o : SimulationResult.t) :
  steps s ≠ [] →
  JS.truthy_str (apiKey s) = true →
  optimizedResult s = Some o →
  let run := handleRunSimulation env s in
  activeTab (state run) = results ∧
  pane (state run) = Viewer (SimulationViewer.Results o) ∧
  ∀ r, GeminiService.settled
         (GeminiService.simulateProcess env (apiKey s) (processName s) (steps s)
            BASELINE None) = GeminiService.Fulfilled r →
       baselineResult (state run) = Some r.
Proof.
  intros E K Ho run. subst run.
  unfold handleRunSimulation, handleRunSimulation_start.
  destruct (steps s) as [|x rest] eqn:Es; [done |]. rewrite K. simpl.
  unfold simulate. simpl.
  destruct (GeminiService.settled _) as [r|e]; simpl; unfold pane; simpl;
    rewrite Ho; simpl; repeat split; try done; congruence.
Qed.

Lemma handleRunSimulation_shows_optimized_witness :
  pane (state (handleRunSimulation Sample.at200 Sample.session))
  = Viewer (SimulationViewer.Results Sample.optimized).
Proof.
  destruct (handleRunSimulation_shows_optimized Sample.at200 Sample.session
              Sample.optimized) as (_ & H & _).
  - discriminate.
  - reflexivity.
  - reflexivity.
  - exact H.
Defined.

(** X19.  A reset does not cancel a simulation that is awaited.  When the
    simulation of a proposal settles after a confirmed reset, its result
    is stored in the reset state; if there was a baseline result when the
    proposal was applied, the comparison tab is selected although the
    baseline result is gone, and the workspace is blank.  A baseline run
    that settles after a reset is stored in the same way. *)
Theorem reset_does_not_cancel (newSteps : list ProcessStep.t) s
    (ls : gmap string Item) (b r : SimulationResult.t) :
  JS.truthy_str (apiKey s) = true →
  baselineResult s = Some b →
  let pending := (handleApplyOptimization_start newSteps s).1 in
  let reset := (handleReset true pending ls).1 in
  let settled :=
    (handleApplyOptimization_settle s (GeminiService.Fulfilled r) reset).1 in
  let settled' :=
    (handleRunSimulation_settle (GeminiService.Fulfilled r) reset).1 in
  snapshot reset = resetSnapshot ∧
  optimizedResult settled = Some r ∧
  baselineResult settled = None ∧
  steps settled = [] ∧
  activeTab settled = compare ∧
  pane settled = Blank ∧
  baselineResult settled' = Some r ∧
  steps settled' = [].
Proof.
  intros K Hb. unfold handleApplyOptimization_start. rewrite K. simpl.
  rewrite Hb. simpl. done.
Qed.

Lemma reset_does_not_cancel_witness :
  pane (handleApplyOptimization_settle Sample.session
          (GeminiService.Fulfilled Sample.optimized)
          (handleReset true
             (handleApplyOptimization_start [Sample.cut] Sample.session).1 ∅).1).1
  = Blank.
Proof.
  destruct (reset_does_not_cancel [Sample.cut] Sample.session ∅
              Sample.baseline Sample.optimized) as (_ & _ & _ & _ & _ & H & _).
  - reflexivity.
  - reflexivity.
  - exact H.
Defined.

Lemma pane_blank s :
  pane s = Blank ↔
  activeTab s = compare ∧ (baselineResult s = None ∨ optimizedResult s = None).
Proof.
  unfold pane. destruct (activeTab s); [split; [done | by intros [? _]] .. |].
  destruct (baselineResult s), (optimizedResult s); split;
    try done; try (intros [_ [|]]; done); eauto.
Qed.

Lemma dispatch_not_blank s (e : Event) :
  pane s ≠ Blank → pane (dispatch s e) ≠ Blank.
Proof.
  rewrite !pane_blank. intros H. destruct e as
    [t | env | env newSteps | confirmed | n | st | h | k | | confirmed]; simpl.
  - unfold clickTab. destruct (tabDisabled t s) eqn:D; [done |].
    destruct t; simpl; [by intros [? _] | by intros [? _] |].
    simpl in D. apply orb_false_iff in D as [Db Do].
    destruct (baselineResult s), (optimizedResult s); try done.
    by intros [_ [|]].
  - unfold clickSimulate.
    destruct (activeTab s) eqn:T;
      [| rewrite T; exact H | rewrite T; exact H].
    destruct (simulateDisabled s); [rewrite T; exact H |].
    unfold handleRunSimulation, handleRunSimulation_start.
    destruct (steps s); [simpl; rewrite T; exact H |].
    destruct (negb (JS.truthy_str (apiKey s))); simpl; [rewrite T; exact H |].
    destruct (GeminiService.settled _); simpl; by intros [? _].
  - unfold handleApplyOptimization, handleApplyOptimization_start.
    destruct (negb (JS.truthy_str (apiKey s))); simpl; [done |].
    destruct (GeminiService.settled _); simpl; [| by intros [? _]].
    destruct (baselineResult s) eqn:B; simpl; [| by intros [? _]].
    rewrite B. by intros [_ [|]].
  - destruct confirmed; simpl; [by intros [? _] | done].
  - done.
  - done.
  - done.
  - unfold submitApiKey. by destruct (ApiKeyModal.handleSubmit k).
  - done.
  - by destruct confirmed.
Qed.

(** X20.  As long as no event arrives while an answer is awaited, the
    workspace is never blank: the comparison tab is selected only while
    both results exist, whatever the user does and whatever the oracle
    answers. *)
Theorem workspace_never_blank (events : list Event) s :
  pane s ≠ Blank →
  pane (fold_left dispatch events s) ≠ Blank ∧
  (activeTab (fold_left dispatch events s) = compare →
   is_Some (baselineResult (fold_left dispatch events s)) ∧
   is_Some (optimizedResult (fold_left dispatch events s))).
Proof.
  intros H.
  assert (pane (fold_left dispatch events s) ≠ Blank) as Hend.
  { revert s H. induction events as [|e events IH]; intros s H; [done |].
    simpl. by apply IH, dispatch_not_blank. }
  split; [done |]. intros T. rewrite pane_blank in Hend.
  destruct (baselineResult _), (optimizedResult _); try (by eauto);
    exfalso; apply Hend; eauto.
Qed.

Lemma workspace_never_blank_witness :
  pane (fold_left dispatch
          [ApplyOptimization Sample.at100 [Sample.cut; Sample.weld];
           ClickSimulate Sample.at200; ClickTab compare; Reset true;
           ClickTab compare]
          Sample.fresh) ≠ Blank.
Proof.
  destruct (workspace_never_blank
              [ApplyOptimization Sample.at100 [Sample.cut; Sample.weld];
               ClickSimulate Sample.at200; ClickTab compare; Reset true;
               ClickTab compare]
              Sample.fresh) as [H _].
  - discriminate.
  - exact H.
Defined.

(** The comparison tab cannot be selected again after the reset. *)
Example workspace_after_reset :
  pane (fold_left dispatch
          [ApplyOptimization Sample.at100 [Sample.cut; Sample.weld];
           ClickSimulate Sample.at200; ClickTab compare; Reset true;
           ClickTab compare]
          Sample.fresh) = Builder.
Proof. reflexivity. Qed.

(** *** Loading *)

Lemma read_processName_nonempty (p : list (string * Json.t)) (n : string) :
  read_processName p = Some n → n ≠ "".
Proof.
  unfold read_processName. destruct (Json.prop "processName" p) as [j|].
  - destruct (Json.truthy j) eqn:T; [| by intros [= <-]].
    destruct j; try discriminate. intros [= <-].
    by apply truthy_str_nonempty.
  - by intros [= <-].
Qed.

(** X21.  Loading never fails and never leaves an empty name.  With no
    record, with a record that is not JSON, and with the record [null]
    the state stays as it is; an object without any of the five fields
    gives the defaults; and whatever is restored has a process name that
    is not empty. *)
Theorem load_falls_back (ls : gmap string Item) s :
  (ls !! STORAGE_KEY = None → loadState ls s = Some s) ∧
  (∀ text, ls !! STORAGE_KEY = Some (Plain text) → loadState ls s = Some s) ∧
  (ls !! STORAGE_KEY = Some (JsonText Json.Null) → loadState ls s = Some s) ∧
  (∀ p, ls !! STORAGE_KEY = Some (JsonText (Json.Obj p)) →
        Forall (λ k, Json.prop k p = None)
          ["processName"; "steps"; "baselineResult"; "optimizedResult";
           "chatHistory"] →
        load ls = Restored defaultSnapshot) ∧
  (∀ x, load ls = Restored x → snap_processName x ≠ "").
Proof.
  unfold loadState, load. repeat split.
  - by intros ->.
  - intros text ->. simpl. by destruct (JS.truthy_str text).
  - by intros ->.
  - intros p -> H. simpl.
    apply Forall_cons in H as [Hn H]. apply Forall_cons in H as [Hs H].
    apply Forall_cons in H as [Hb H]. apply Forall_cons in H as [Ho H].
    apply Forall_cons in H as [Hc _].
    unfold read_processName, read_list, read_result.
    by rewrite Hn, Hs, Hb, Ho, Hc.
  - intros x. destruct (ls !! STORAGE_KEY) as [[doc|text]|]; simpl;
      [| by destruct (JS.truthy_str text) | done].
    destruct doc as [| | | | |p]; simpl; try done; try (by intros [= <-]).
    destruct (read_processName p) as [n|] eqn:Hn; [| done].
    repeat case_match; try done. intros [= <-]. simpl.
    by apply (read_processName_nonempty p).
Qed.

Lemma load_falls_back_witness :
  loadState (<[STORAGE_KEY := Plain "{broken"]> ∅) Sample.session
  = Some Sample.session ∧
  load (<[STORAGE_KEY := JsonText (Json.Obj [("version", Json.Num 2%float)])]> ∅)
  = Restored defaultSnapshot.
Proof.
  split.
  - destruct (load_falls_back (<[STORAGE_KEY := Plain "{broken"]> ∅)
                Sample.session) as (_ & H & _).
    apply (H "{broken"). apply lookup_insert_eq.
  - destruct (load_falls_back
                (<[STORAGE_KEY := JsonText (Json.Obj [("version", Json.Num 2%float)])]> ∅)
                Sample.session) as (_ & _ & _ & H & _).
    apply (H [("version", Json.Num 2%float)]).
    + apply lookup_insert_eq.
    + repeat constructor.
Defined.

End Workspace.

(** ** More on the comparison view *)

Section Badges.
Local Open Scope float_scope.
Import ComparisonView.

(** X22.  A metric whose baseline value is zero is shown as unchanged:
    its delta is [0], it counts neither as an improvement nor as a
    regression whatever its category and its optimized value, and it gets
    the neutral badge and no plus sign.  (The baseline value of a name is
    the value of the first baseline metric with that name.) *)
Theorem zero_baseline_is_neutral (baseline optimized : SimulationResult.t)
    (metric first : SimulationMetric.t) :
  find_metric (SimulationMetric.name metric) (SimulationResult.metrics baseline)
    = Some first →
  (SimulationMetric.value first =? 0) = true →
  let row := tableRow baseline optimized metric in
  delta row = 0 ∧ isImprovement row = false ∧ badge row = Slate ∧
  plusSign row = false.
Proof.
  intros Hfind Hzero row. subst row.
  assert (getDelta baseline optimized (SimulationMetric.name metric) = 0) as D.
  { unfold getDelta. rewrite Hfind.
    change (SimulationMetric.value <$> Some first)
      with (Some (SimulationMetric.value first)).
    unfold JS.num_or at 1. by rewrite (truthy_num_zero _ Hzero). }
  unfold tableRow. simpl. rewrite D. by destruct (isPositiveGood _).
Qed.

Lemma zero_baseline_is_neutral_witness :
  badge (tableRow
           (SimulationResult.mk "b" 1 BASELINE
              [SimulationMetric.mk "Scrap" 0 "kg" waste] [] "" [])
           (SimulationResult.mk "o" 2 OPTIMIZED
              [SimulationMetric.mk "Scrap" 3 "kg" waste] [] "" [])
           (SimulationMetric.mk "Scrap" 0 "kg" waste)) = Slate.
Proof.
  destruct (zero_baseline_is_neutral
              (SimulationResult.mk "b" 1 BASELINE
                 [SimulationMetric.mk "Scrap" 0 "kg" waste] [] "" [])
              (SimulationResult.mk "o" 2 OPTIMIZED
                 [SimulationMetric.mk "Scrap" 3 "kg" waste] [] "" [])
              (SimulationMetric.mk "Scrap" 0 "kg" waste)
              (SimulationMetric.mk "Scrap" 0 "kg" waste)) as (_ & _ & H & _).
  - reflexivity.
  - reflexivity.
  - exact H.
Defined.

End Badges.
